(** * A shallow embedding of [solar_logger/logger.py]

    The Python program samples a TSL2591 light sensor (and host counters),
    stores the samples in a per-sensor SQLite table and forwards the unsent
    rows to a remote collector, marking the acknowledged rows as sent.

    Modelling conventions.
    - A Python [str] is a Rocq [string]; characters are read as Latin-1, so
      the whitespace set of [str.strip] and [float()] is the one of that
      range.
    - A Python [float] is a primitive binary64 [PrimFloat.float]; Python
      [int]s are [Z].
    - A Python exception is the [Exc] constructor of the result type [res];
      [try]/[except] is a [match] on it.
    - A sensor's hardware read that raises [RuntimeError] is [None]. *)

From Stdlib Require Import ZArith List String Ascii Bool Lia.
From Stdlib Require Import Floats.
Import ListNotations.
Open Scope string_scope.
Set Warnings "-register-all -inexact-float -abstract-large-number".

(** ** Exceptions and the result monad *)

Inductive exn :=
| AttributeError      (* e.g. [None.split], [None.items()] *)
| TypeError
| KeyError
| ValueError
| OverflowError       (* [int] too large to convert to [float] *)
| StorageError        (* any [sqlite3.Error] *)
| TransportError.     (* any failure of [self.http.request] *)

Inductive res (A : Type) :=
| Ok (a : A)
| Exc (e : exn).
Arguments Ok {A} a.
Arguments Exc {A} e.

Definition bind {A B} (m : res A) (k : A -> res B) : res B :=
  match m with Ok a => k a | Exc e => Exc e end.

Notation "x <- m ;; k" := (bind m (fun x => k))
  (at level 61, m at next level, right associativity).

(** ** Python string helpers *)

Module PyStr.

Definition is_char (c : ascii) (a : ascii) : bool := Ascii.eqb a c.

(** [s.split(c)] for a one-character separator: empty pieces are kept and
    the empty string splits into [[""]]. *)
Fixpoint split (c : ascii) (s : string) : list string :=
  match s with
  | EmptyString => [EmptyString]
  | String a s' =>
      let rest := split c s' in
      if Ascii.eqb a c then EmptyString :: rest
      else match rest with
           | x :: xs => String a x :: xs
           | [] => [String a EmptyString]
           end
  end.

(** [sep.join(l)] for a one-character separator. *)
Fixpoint join (c : ascii) (l : list string) : string :=
  match l with
  | [] => EmptyString
  | [x] => x
  | x :: xs => x ++ String c (join c xs)
  end.

(** [s.split(c, 1)]: [None] when [c] does not occur. *)
Fixpoint split_once (c : ascii) (s : string) : option (string * string) :=
  match s with
  | EmptyString => None
  | String a s' =>
      if Ascii.eqb a c then Some (EmptyString, s')
      else match split_once c s' with
           | Some (l, r) => Some (String a l, r)
           | None => None
           end
  end.

(** [str.isspace] on one character (Latin-1 range). *)
Definition is_space (a : ascii) : bool :=
  let n := nat_of_ascii a in
  ((9 <=? n) && (n <=? 13))%nat || ((28 <=? n) && (n <=? 32))%nat
  || (n =? 133)%nat || (n =? 160)%nat.

Fixpoint lstrip (s : string) : string :=
  match s with
  | String a s' => if is_space a then lstrip s' else s
  | EmptyString => EmptyString
  end.

Definition rev_str (s : string) : string :=
  string_of_list_ascii (rev (list_ascii_of_string s)).

(** [s.strip()] *)
Definition strip (s : string) : string := rev_str (lstrip (rev_str (lstrip s))).

(** [s.replace(a, b)] for one-character [a] and [b]. *)
Fixpoint replace_char (a b : ascii) (s : string) : string :=
  match s with
  | EmptyString => EmptyString
  | String c s' => String (if Ascii.eqb c a then b else c) (replace_char a b s')
  end.

Definition hex_val (a : ascii) : option nat :=
  let n := nat_of_ascii a in
  if ((48 <=? n) && (n <=? 57))%nat then Some (n - 48)%nat
  else if ((65 <=? n) && (n <=? 70))%nat then Some (n - 55)%nat
  else if ((97 <=? n) && (n <=? 102))%nat then Some (n - 87)%nat
  else None.

(** [urllib.parse.unquote]: each [%XX] with two hex digits becomes the
    character [XX]; any other [%] is kept.  Python decodes the escaped bytes
    as UTF-8: for escapes of bytes below [0x80] (ASCII) the two agree. *)
Fixpoint unquote (s : string) : string :=
  match s with
  | EmptyString => EmptyString
  | String c t =>
      if Ascii.eqb c "%" then
        match t with
        | String h1 (String h2 rest) =>
            match hex_val h1, hex_val h2 with
            | Some x, Some y => String (ascii_of_nat (16 * x + y)) (unquote rest)
            | _, _ => String c (unquote t)
            end
        | _ => String c (unquote t)
        end
      else String c (unquote t)
  end.

(** Whether [c] occurs in [s]. *)
Definition has_char (c : ascii) (s : string) : bool :=
  existsb (Ascii.eqb c) (list_ascii_of_string s).

End PyStr.

(** ** [urllib.parse.parse_qs] (Python 3.10 and later, separator ['&'],
    [keep_blank_values=False], [strict_parsing=False]) *)

(** [parse_qsl(qs)]: the (name, value) pairs in order. *)
Definition parse_qsl (qs : string) : list (string * string) :=
  let query_args := if String.eqb qs "" then [] else PyStr.split "&" qs in
  flat_map (fun name_value =>
    if String.eqb name_value "" then []
    else match PyStr.split_once "=" name_value with
         | None => []
         | Some (n, v) =>
             if String.eqb v "" then []
             else [(PyStr.unquote (PyStr.replace_char "+" " " n),
                    PyStr.unquote (PyStr.replace_char "+" " " v))]
         end) query_args.

(** [parse_qs(qs)[key][0]] when [key in parse_qs(qs)]: the first value
    bound to [key]. *)
Fixpoint qs_first (key : string) (l : list (string * string)) : option string :=
  match l with
  | [] => None
  | (n, v) :: l' => if String.eqb n key then Some v else qs_first key l'
  end.

(** [option_in_tag(tag, key)] (logger.py, lines 57-63); [tag] is [None]
    or a [str]. *)
Definition option_in_tag (tag : option string) (key : string) : res (option string) :=
  match tag with
  | None => Exc AttributeError
  | Some t =>
      let parts := PyStr.split "," t in
      Ok (fold_right (fun p acc =>
            match qs_first key (parse_qsl (PyStr.strip p)) with
            | Some v => Some v
            | None => acc
            end) None parts)
  end.

(** ** Python's [float(str)] and [float(int)]

    [float(s)] strips whitespace, removes the underscores that stand between
    two digits (any other underscore is a [ValueError]), and reads an optional
    sign followed by [inf], [infinity] or [nan] (any case) or by a decimal
    literal with an optional exponent.  The value is rounded to nearest-even
    binary64, with overflow to an infinity and underflow to a zero. *)

Module PyFloat.

Definition is_digit (a : ascii) : bool :=
  let n := nat_of_ascii a in ((48 <=? n) && (n <=? 57))%nat.

Definition digit_val (a : ascii) : Z := Z.of_nat (nat_of_ascii a - 48).

Fixpoint remove_underscores (prev : option ascii) (l : list ascii) : option (list ascii) :=
  match l with
  | [] => Some []
  | c :: l' =>
      if Ascii.eqb c "_" then
        let prev_ok := match prev with Some p => is_digit p | None => false end in
        let next_ok := match l' with n :: _ => is_digit n | [] => false end in
        if prev_ok && next_ok then remove_underscores (Some c) l' else None
      else option_map (cons c) (remove_underscores (Some c) l')
  end.

Fixpoint take_digits (l : list ascii) : list ascii * list ascii :=
  match l with
  | c :: l' => if is_digit c then let (ds, r) := take_digits l' in (c :: ds, r) else ([], l)
  | [] => ([], [])
  end.

Definition digits_to_Z (ds : list ascii) : Z :=
  fold_left (fun acc d => (10 * acc + digit_val d)%Z) ds 0%Z.

Definition lower (a : ascii) : ascii :=
  let n := nat_of_ascii a in
  if ((65 <=? n) && (n <=? 90))%nat then ascii_of_nat (n + 32) else a.

(** Round [p / q] (times the sign [sx]) to nearest-even binary64: the
    quotient is taken with at least 60 significant bits and the remainder
    kept as the rounding location. *)
Definition round_ratio (sx : bool) (p q : positive) : spec_float :=
  let s := Z.max 0 (60 + Z.log2 (Zpos q) - Z.log2 (Zpos p)) in
  let (quot, rem) := Z.div_eucl (Zpos p * 2 ^ s) (Zpos q) in
  let loc := if Z.eqb rem 0 then loc_Exact
             else loc_Inexact (Z.compare (2 * rem) (Zpos q)) in
  binary_round_aux prec emax sx quot (- s) loc.

(** The binary64 value nearest to [(-1)^sx * m * 10^k]; [ndig] bounds the
    number of decimal digits of [m]. *)
Definition decimal_to_float (sx : bool) (m : Z) (ndig : Z) (k : Z) : float :=
  match m with
  | Zpos p =>
      if Z.leb 0 k then
        if Z.ltb 400 k then SF2Prim (S754_infinity sx)
        else SF2Prim (binary_normalize prec emax
                        ((if sx then Zneg p else Zpos p) * 10 ^ k) 0 sx)
      else if Z.ltb (k + ndig) (-400) then SF2Prim (S754_zero sx)
      else SF2Prim (round_ratio sx p (Z.to_pos (10 ^ (- k))))
  | _ => SF2Prim (S754_zero sx)
  end.

(** Sign, then a special value or a decimal literal, up to the end. *)
Definition parse_number (l : list ascii) : option float :=
  let '(sx, l1) := match l with
                   | c :: l' => if Ascii.eqb c "-" then (true, l')
                                else if Ascii.eqb c "+" then (false, l')
                                else (false, l)
                   | [] => (false, [])
                   end in
  let word := string_of_list_ascii (map lower l1) in
  if String.eqb word "inf" || String.eqb word "infinity" then
    Some (if sx then neg_infinity else infinity)
  else if String.eqb word "nan" then Some nan
  else
    let '(ds, l2) := take_digits l1 in
    let '(fs, l3) := match l2 with
                     | c :: l' => if Ascii.eqb c "." then take_digits l' else ([], l2)
                     | [] => ([], [])
                     end in
    match (ds ++ fs)%list with
    | [] => None
    | mant =>
        let exp := match l3 with
                   | [] => Some 0%Z
                   | c :: l' =>
                       if Ascii.eqb c "e" || Ascii.eqb c "E" then
                         let '(es, l4) := match l' with
                                          | s :: l'' => if Ascii.eqb s "-" then (true, l'')
                                                        else if Ascii.eqb s "+" then (false, l'')
                                                        else (false, l')
                                          | [] => (false, [])
                                          end in
                         match take_digits l4 with
                         | ([], _) => None
                         | (eds, []) => Some (if es then - digits_to_Z eds else digits_to_Z eds)%Z
                         | _ => None
                         end
                       else None
                   end in
        match exp with
        | Some e =>
            Some (decimal_to_float sx (digits_to_Z mant) (Z.of_nat (List.length mant))
                    (e - Z.of_nat (List.length fs))%Z)
        | None => None
        end
    end.

(** [float(s)]: [None] is the [ValueError]. *)
Definition py_float (s : string) : option float :=
  match remove_underscores None (list_ascii_of_string (PyStr.strip s)) with
  | Some l => parse_number l
  | None => None
  end.

(** [float(n)] for an [int] [n]: [OverflowError] when it rounds past the
    largest finite binary64. *)
Definition int_to_float (n : Z) : res float :=
  match binary_normalize prec emax n 0 false with
  | S754_infinity _ => Exc OverflowError
  | f => Ok (SF2Prim f)
  end.

End PyFloat.

(** ** Sensors (logger.py, lines 21-232) *)

Module Sensors.

Import PyFloat.

(** Python values stored in a sensor's data dictionary. *)
Inductive pyval :=
| PNone
| PInt (z : Z)
| PFloat (f : float)
| PStr (s : string).

Definition pyval_of_tag (tag : option string) : pyval :=
  match tag with Some s => PStr s | None => PNone end.

(** Truthiness of an [int] read ([None] when the read raised
    [RuntimeError]) and of a tag. *)
Definition truthy_int (v : option Z) : bool :=
  match v with Some z => negb (Z.eqb z 0) | None => false end.

Definition truthy_str (v : option string) : bool :=
  match v with Some s => negb (String.eqb s "") | None => false end.

Definition _TSL2591_LUX_DF : float := 408.0.
Definition _TSL2591_LUX_COEFB : float := 1.64.
Definition _TSL2591_LUX_COEFC : float := 0.59.
Definition _TSL2591_LUX_COEFD : float := 0.86.

(** What the three properties [tsl.visible], [tsl.infrared] and [tsl.lux]
    answer during one call of [sensor_data]; [None] stands for the
    [RuntimeError] the driver raises. *)
Record tsl_reads := {
  rd_visible : option Z;
  rd_infrared : option Z;
  rd_lux : option float
}.

(** The dictionary [{'tag': tag, 'visible': visible, 'infrared': infrared,
    'lux': lux}] returned by [Tsl2591Sensor.sensor_data]. *)
Record light_data := {
  ld_tag : option string;
  ld_visible : Z;
  ld_infrared : Z;
  ld_lux : float
}.

(** [max(lux1, lux2)]: the second argument replaces the first only when it
    compares greater. *)
Definition py_max (a b : float) : float := if (a <? b)%float then b else a.

(** The overflow branch of [sensor_data] (lines 125-139): the lux value
    computed from the raw channels. *)
Definition overflow_lux (visible infrared : Z) : res float :=
  let atime := 100.0%float in
  let again := 1.0%float in
  let cpl := (atime * again / _TSL2591_LUX_DF)%float in
  let channel_0 := Z.land (visible + infrared) 65535 in
  let channel_1 := infrared in
  c0 <- int_to_float channel_0 ;;
  c1 <- int_to_float channel_1 ;;
  let lux1 := ((c0 - _TSL2591_LUX_COEFB * c1) / cpl)%float in
  let lux2 := ((_TSL2591_LUX_COEFC * c0 - _TSL2591_LUX_COEFD * c1) / cpl)%float in
  Ok (py_max lux1 lux2).

(** The tag after the overflow branch (lines 135-138). *)
Definition overflow_tag (tag : option string) : option string :=
  match tag with
  | Some s => if truthy_str tag then Some (s ++ ",overflow") else Some "overflow"
  | None => Some "overflow"
  end.

(** The [nd] multiplier (lines 141-147): [float(nd)] failing is ignored. *)
Definition apply_nd (nd : option string) (lux : float) : float :=
  if truthy_str nd then
    match nd with
    | Some s => match py_float s with Some x => (lux * x)%float | None => lux end
    | None => lux
    end
  else lux.

(** [Tsl2591Sensor.sensor_data(tag)] (lines 100-151); [Ok None] is the
    Python [None]. *)
Definition tsl_sensor_data (rd : tsl_reads) (tag : option string)
  : res (option light_data) :=
  let visible := rd_visible rd in
  let infrared := rd_infrared rd in
  match visible, infrared with
  | Some v, Some i =>
      if truthy_int visible && truthy_int infrared then
        lt <- match rd_lux rd with
              | None => l <- overflow_lux v i ;; Ok (l, overflow_tag tag)
              | Some l => Ok (l, tag)
              end ;;
        let '(lux, tag') := lt in
        nd <- option_in_tag tag' "nd" ;;
        Ok (Some {| ld_tag := tag'; ld_visible := v; ld_infrared := i;
                    ld_lux := apply_nd nd lux |})
      else Ok None
  | _, _ => Ok None
  end.

(** [MockTsl2591] (lines 154-165). *)
Definition mock_reads : tsl_reads :=
  {| rd_visible := Some 554840886%Z; rd_infrared := Some 8478%Z; rd_lux := None |}.

Definition cpu_columns : list string :=
  ["user"; "nice"; "system"; "idle"; "iowait"; "irq"; "softirq"; "steal";
   "guest"; "guest_nice"].

Definition vmemory_columns : list string :=
  ["total"; "available"; "percent"; "used"; "free"; "active"; "inactive";
   "buffers"; "cached"; "shared"; "slab"].

Fixpoint assoc (k : string) (l : list (string * pyval)) : option pyval :=
  match l with
  | [] => None
  | (k', v) :: l' => if String.eqb k k' then Some v else assoc k l'
  end.

(** [PsCpuSensor.sensor_data] and [PsVmemorySensor.sensor_data]: the tag,
    then the schema columns the host's snapshot [host] has. *)
Definition ps_sensor_data (schema : list string) (host : list (string * pyval))
    (tag : option string) : list (string * pyval) :=
  ("tag", pyval_of_tag tag)
    :: flat_map (fun k => match assoc k host with
                          | Some v => [(k, v)]
                          | None => []
                          end) schema.

(** The sensor variants, each with what its source answers at this sample. *)
Inductive sensor_kind :=
| Tsl2591Sensor (rd : tsl_reads)
| PsCpuSensor (host : list (string * pyval))
| PsVmemorySensor (host : list (string * pyval)).

Record sensor := {
  s_name : string;
  s_enabled : bool;
  s_kind : sensor_kind
}.

Definition light_dict (d : light_data) : list (string * pyval) :=
  [("tag", pyval_of_tag (ld_tag d)); ("visible", PInt (ld_visible d));
   ("infrared", PInt (ld_infrared d)); ("lux", PFloat (ld_lux d))].

(** [sensor.sensor_data(tag)] as a dictionary ([None] for Python [None]). *)
Definition sensor_data (s : sensor) (tag : option string)
  : res (option (list (string * pyval))) :=
  match s_kind s with
  | Tsl2591Sensor rd => d <- tsl_sensor_data rd tag ;; Ok (option_map light_dict d)
  | PsCpuSensor host => Ok (Some (ps_sensor_data cpu_columns host tag))
  | PsVmemorySensor host => Ok (Some (ps_sensor_data vmemory_columns host tag))
  end.

Record collected := {
  c_table : string;
  c_at : string;
  c_data : list (string * pyval)
}.

(** [Sensor.collect(dt, tag)] (lines 31-36): a dictionary is truthy when
    non-empty. *)
Definition collect (s : sensor) (dt : string) (tag : option string)
  : res (option collected) :=
  data <- sensor_data s tag ;;
  match data with
  | Some ((_ :: _) as d) => Ok (Some {| c_table := s_name s; c_at := dt; c_data := d |})
  | _ => Ok None
  end.

(** [Logger.collect_data] (lines 299-310) over the sensors in dictionary
    order, at the clock reading [now]. *)
Fixpoint collect_all (sensors : list sensor) (now : string) (tag : option string)
  : res (list collected) :=
  match sensors with
  | [] => Ok []
  | s :: ss =>
      r <- (if s_enabled s then collect s now tag else Ok None) ;;
      rest <- collect_all ss now tag ;;
      Ok (match r with Some c => c :: rest | None => rest end)
  end.

Definition collect_data (sensors : list sensor) (now : string) (tag : option string)
  : res (string * list collected) :=
  all_data <- collect_all sensors now tag ;; Ok (now, all_data).

End Sensors.

(** ** Local store and forwarder (logger.py, lines 283-428) *)

Module Forwarder.

Import Sensors.

(** JSON values as [json.loads] returns them (objects keep their key list;
    for a repeated key the last binding is the one Python keeps). *)
Inductive json :=
| JNull
| JBool (b : bool)
| JInt (z : Z)
| JFloat (f : float)
| JStr (s : string)
| JArr (l : list json)
| JObj (kvs : list (string * json)).

Fixpoint obj_get (kvs : list (string * json)) (k : string) : option json :=
  match kvs with
  | [] => None
  | (k', v) :: kvs' =>
      match obj_get kvs' k with
      | Some w => Some w
      | None => if String.eqb k k' then Some v else None
      end
  end.

(** [v[k]] for a [str] key [k]. *)
Definition py_getitem (v : json) (k : string) : res json :=
  match v with
  | JObj kvs => match obj_get kvs k with Some w => Ok w | None => Exc KeyError end
  | _ => Exc TypeError
  end.

Fixpoint dedup_keys (seen : list string) (kvs : list (string * json)) : list string :=
  match kvs with
  | [] => []
  | (k, _) :: kvs' =>
      if existsb (String.eqb k) seen then dedup_keys seen kvs'
      else k :: dedup_keys (k :: seen) kvs'
  end.

(** [for x in v]: a list yields its items, a dict its keys, a [str] its
    characters. *)
Definition py_iter (v : json) : res (list json) :=
  match v with
  | JArr l => Ok l
  | JObj kvs => Ok (map JStr (dedup_keys [] kvs))
  | JStr s => Ok (map (fun c => JStr (String c EmptyString)) (list_ascii_of_string s))
  | _ => Exc TypeError
  end.

(** [needle in s] for [str]s. *)
Fixpoint is_substring (needle s : string) : bool :=
  match s with
  | EmptyString => String.eqb needle ""
  | String _ s' => String.prefix needle s || is_substring needle s'
  end.

(** [k in v] for a [str] [k]. *)
Definition py_contains (k : string) (v : json) : res bool :=
  match v with
  | JObj kvs => Ok (match obj_get kvs k with Some _ => true | None => false end)
  | JArr l => Ok (existsb (fun x => match x with JStr s => String.eqb s k | _ => false end) l)
  | JStr s => Ok (is_substring k s)
  | _ => Exc TypeError
  end.

(** [[row['source_id'] for row in rows if 'source_id' in row]] *)
Fixpoint collect_ids (rows : list json) : res (list json) :=
  match rows with
  | [] => Ok []
  | row :: rows' =>
      c <- py_contains "source_id" row ;;
      if c then
        v <- py_getitem row "source_id" ;;
        rest <- collect_ids rows' ;;
        Ok (v :: rest)
      else collect_ids rows'
  end.

(** Lines 405-406, from the decoded body [resp.json()]. *)
Definition extract_ids (body : json) : res (list json) :=
  record <- py_getitem body "record" ;;
  rows <- py_getitem record "rows" ;;
  l <- py_iter rows ;;
  collect_ids l.

(** A stored row: [source_id], [tag], [at] and [sent] (timestamps as the
    text the [sqlite3] datetime adapter stores), then the sensor columns
    with the JSON value each serialises to. *)
Record row := {
  source_id : Z;
  row_tag : option string;
  row_at : string;
  row_sent : option string;
  row_cols : list (string * json)
}.

Definition opt_json (s : option string) : json :=
  match s with Some t => JStr t | None => JNull end.

(** [{key: row[key] for key in row.keys()}] as it is sent. *)
Definition row_to_json (r : row) : json :=
  JObj ([("source_id", JInt (source_id r)); ("tag", opt_json (row_tag r));
         ("at", JStr (row_at r)); ("sent", opt_json (row_sent r))] ++ row_cols r).

(** The database: each table's rows in [source_id] order. *)
Definition db := list (string * list row).

Fixpoint lookup {A} (k : string) (l : list (string * A)) : option A :=
  match l with
  | [] => None
  | (k', v) :: l' => if String.eqb k k' then Some v else lookup k l'
  end.

Fixpoint set_table {A} (k : string) (v : A) (l : list (string * A)) : list (string * A) :=
  match l with
  | [] => []
  | (k', w) :: l' => if String.eqb k k' then (k', v) :: l' else (k', w) :: set_table k v l'
  end.

(** [d[k] = v] on a Python dict (insertion order kept). *)
Fixpoint dict_set {A} (k : string) (v : A) (l : list (string * A)) : list (string * A) :=
  match l with
  | [] => [(k, v)]
  | (k', w) :: l' => if String.eqb k k' then (k', v) :: l' else (k', w) :: dict_set k v l'
  end.

(** [self.sensors = {sensor.name: sensor for sensor in sensors}] in
    [Logger.__init__] (line 249): a later sensor with a name already seen
    replaces the earlier one in its position. *)
Definition sensors_dict (sensors : list sensor) : list (string * sensor) :=
  fold_left (fun acc s => dict_set (s_name s) s acc) sensors [].

Definition is_unsent (r : row) : bool :=
  match row_sent r with None => true | Some _ => false end.

(** The 147 keywords of SQLite ([lang_keywords.html]), in lower case. *)
Definition sqlite_keywords : list string :=
  ["abort"; "action"; "add"; "after"; "all"; "alter"; "always"; "analyze"; "and"; "as";
   "asc"; "attach"; "autoincrement"; "before"; "begin"; "between"; "by"; "cascade";
   "case"; "cast"; "check"; "collate"; "column"; "commit"; "conflict"; "constraint";
   "create"; "cross"; "current"; "current_date"; "current_time"; "current_timestamp";
   "database"; "default"; "deferrable"; "deferred"; "delete"; "desc"; "detach";
   "distinct"; "do"; "drop"; "each"; "else"; "end"; "escape"; "except"; "exclude";
   "exclusive"; "exists"; "explain"; "fail"; "filter"; "first"; "following"; "for";
   "foreign"; "from"; "full"; "generated"; "glob"; "group"; "groups"; "having"; "if";
   "ignore"; "immediate"; "in"; "index"; "indexed"; "initially"; "inner"; "insert";
   "instead"; "intersect"; "into"; "is"; "isnull"; "join"; "key"; "last"; "left";
   "like"; "limit"; "match"; "materialized"; "natural"; "no"; "not"; "nothing";
   "notnull"; "null"; "nulls"; "of"; "offset"; "on"; "or"; "order"; "others"; "outer";
   "over"; "partition"; "plan"; "pragma"; "preceding"; "primary"; "query"; "raise";
   "range"; "recursive"; "references"; "regexp"; "reindex"; "release"; "rename";
   "replace"; "restrict"; "returning"; "right"; "rollback"; "row"; "rows"; "savepoint";
   "select"; "set"; "table"; "temp"; "temporary"; "then"; "ties"; "to"; "transaction";
   "trigger"; "unbounded"; "union"; "unique"; "update"; "using"; "vacuum"; "values";
   "view"; "virtual"; "when"; "where"; "window"; "with"; "without"].

Definition is_lower_or_underscore (a : ascii) : bool :=
  let n := nat_of_ascii a in ((97 <=? n) && (n <=? 122))%nat || Ascii.eqb a "_".

(** The table names spliced into the SQL text ([SELECT * FROM {table}],
    [UPDATE {table}]) are resolved by SQLite, case-insensitively, and may
    also be a syntax error.  [lookup] matches names exactly; the two agree
    when the name and every table name of the database are plain: lower-case
    ASCII letters, digits and underscores, not starting with a digit, not a
    keyword and outside the reserved [sqlite_] names. *)
Definition sql_plain_name (s : string) : bool :=
  match list_ascii_of_string s with
  | [] => false
  | c :: l => is_lower_or_underscore c
              && forallb (fun a => is_lower_or_underscore a || PyFloat.is_digit a) l
              && negb (existsb (String.eqb s) sqlite_keywords)
              && negb (String.prefix "sqlite_" s)
  end.

(** [SELECT * FROM table WHERE sent IS NULL]; a missing table is an
    [sqlite3.OperationalError]. *)
Definition select_unsent (table : string) (d : db) : res (list row) :=
  match lookup table d with
  | Some rows => Ok (filter is_unsent rows)
  | None => Exc StorageError
  end.

(** SQL values bound to the [?] parameters. *)
Inductive sqlval :=
| SqlNull
| SqlInt (z : Z)
| SqlReal (f : float)
| SqlText (s : string).

Definition in_int64 (z : Z) : bool := (- 2 ^ 63 <=? z)%Z && (z <? 2 ^ 63)%Z.

(** Binding a Python value: an [int] outside 64 bits is an
    [OverflowError]; a list or dict is an [sqlite3.ProgrammingError]. *)
Definition bind_param (v : json) : res sqlval :=
  match v with
  | JNull => Ok SqlNull
  | JBool b => Ok (SqlInt (if b then 1 else 0)%Z)
  | JInt z => if in_int64 z then Ok (SqlInt z) else Exc OverflowError
  | JFloat f => Ok (SqlReal f)
  | JStr s => Ok (SqlText s)
  | JArr _ | JObj _ => Exc StorageError
  end.

Fixpoint bind_params (vs : list json) : res (list sqlval) :=
  match vs with
  | [] => Ok []
  | v :: vs' => p <- bind_param v ;; ps <- bind_params vs' ;; Ok (p :: ps)
  end.

(** [sqlite3Isspace]: space, tab, newline, vertical tab, form feed and
    carriage return. *)
Definition sql_is_space (a : ascii) : bool :=
  let n := nat_of_ascii a in (n =? 32)%nat || ((9 <=? n) && (n <=? 13))%nat.

Fixpoint drop_sql_spaces (l : list ascii) : list ascii :=
  match l with
  | c :: l' => if sql_is_space c then drop_sql_spaces l' else l
  | [] => []
  end.

(** A bound TEXT parameter compared with the INTEGER column [source_id]
    takes numeric affinity: a text that is, between leading and trailing
    spaces, an optional sign, decimal digits with an optional fraction (at
    least one digit in all) and an optional exponent becomes a number (an
    integer literal that fits in 64 bits the INTEGER it spells, any other
    such literal the nearest REAL); any other text stays TEXT, which equals
    no INTEGER. *)
Definition text_as_number (s : string) : option sqlval :=
  let l := rev (drop_sql_spaces (rev (drop_sql_spaces (list_ascii_of_string s)))) in
  let '(sx, l1) := match l with
                   | c :: l' => if Ascii.eqb c "-" then (true, l')
                                else if Ascii.eqb c "+" then (false, l')
                                else (false, l)
                   | [] => (false, [])
                   end in
  let '(ds, l2) := PyFloat.take_digits l1 in
  let '(dot, (fs, l3)) := match l2 with
                          | c :: l' => if Ascii.eqb c "." then (true, PyFloat.take_digits l')
                                       else (false, ([], l2))
                          | [] => (false, ([], []))
                          end in
  let exp := match l3 with
             | [] => Some None
             | c :: l' =>
                 if Ascii.eqb c "e" || Ascii.eqb c "E" then
                   let '(es, l4) := match l' with
                                    | s :: l'' => if Ascii.eqb s "-" then (true, l'')
                                                  else if Ascii.eqb s "+" then (false, l'')
                                                  else (false, l')
                                    | [] => (false, [])
                                    end in
                   match PyFloat.take_digits l4 with
                   | ([], _) => None
                   | (eds, []) => Some (Some (if es then - PyFloat.digits_to_Z eds
                                              else PyFloat.digits_to_Z eds)%Z)
                   | _ => None
                   end
                 else None
             end in
  match (ds ++ fs)%list, exp with
  | [], _ => None
  | _, None => None
  | mant, Some ex =>
      let z := (if sx then - PyFloat.digits_to_Z ds else PyFloat.digits_to_Z ds)%Z in
      let real := SqlReal (PyFloat.decimal_to_float sx (PyFloat.digits_to_Z mant)
                             (Z.of_nat (List.length mant))
                             (match ex with Some k => k | None => 0 end
                              - Z.of_nat (List.length fs))%Z) in
      match dot, ex with
      | false, None => if in_int64 z then Some (SqlInt z) else Some real
      | _, _ => Some real
      end
  end.

(** An INTEGER equals a REAL when they are the same number. *)
Definition real_eq_int (id : Z) (f : float) : bool :=
  match Prim2SF f with
  | S754_zero _ => Z.eqb id 0
  | S754_finite s m e =>
      let sm := (if s then Zneg m else Zpos m) in
      if (0 <=? e)%Z then Z.eqb id (sm * 2 ^ e) else Z.eqb (id * 2 ^ (- e)) sm
  | _ => false
  end.

(** [source_id = p] for one parameter of [source_id IN (...)]. *)
Definition sql_eq_id (id : Z) (p : sqlval) : bool :=
  match p with
  | SqlNull => false
  | SqlInt z => Z.eqb z id
  | SqlReal f => real_eq_int id f
  | SqlText s =>
      match text_as_number s with
      | Some (SqlInt z) => Z.eqb z id
      | Some (SqlReal f) => real_eq_int id f
      | _ => false
      end
  end.

Definition matches (ps : list sqlval) (r : row) : bool := existsb (sql_eq_id (source_id r)) ps.

Definition mark_row (now : string) (r : row) : row :=
  {| source_id := source_id r; row_tag := row_tag r; row_at := row_at r;
     row_sent := Some now; row_cols := row_cols r |}.

(** The largest number of [?] parameters one statement may hold.  It is a
    compile-time setting of the SQLite library ([SQLITE_MAX_VARIABLE_NUMBER]):
    the default is 32766 since SQLite 3.32 (999 before), and distributions
    may build with another value (Debian uses 250000).  The model takes the
    default. *)
Definition SQLITE_MAX_VARIABLE_NUMBER : nat := 32766.

(** [UPDATE table SET sent = ? WHERE source_id IN (?, ...)] with the
    parameters [(now, *ids)]: the new database and [cursor.rowcount]. *)
Definition sql_update_sent (table : string) (now : string) (ids : list json) (d : db)
  : res (nat * db) :=
  if Nat.ltb SQLITE_MAX_VARIABLE_NUMBER (S (List.length ids)) then Exc StorageError
  else
    ps <- bind_params ids ;;
    match lookup table d with
    | None => Exc StorageError
    | Some rows =>
        Ok (List.length (filter (matches ps) rows),
            set_table table (map (fun r => if matches ps r then mark_row now r else r) rows) d)
    end.

(** [Logger.mark_sent(table, ids)] (lines 412-428): the value the function
    returns (it has no [return] value, so [None]) and the new database;
    [now] is the [datetime.utcnow()] reading. *)
Definition mark_sent (table : string) (ids : list json) (now : string) (d : db)
  : res (pyval * db) :=
  match ids with
  | [] => Ok (PNone, d)
  | _ => rc <- sql_update_sent table now ids d ;; let '(_, d') := rc in Ok (PNone, d')
  end.

(** What [self.http.request(...)] does: raise, or answer a status and a body
    ([None] when the body is not JSON, so that [resp.json()] raises). *)
Inductive http_outcome :=
| HTransportError
| HResponse (status : Z) (body : option json).

(** The outside world of one forwarding cycle: the remote endpoint's answer
    to each request body, and the clock reading taken when a table's rows
    are marked. *)
Record env := {
  http : json -> http_outcome;
  clock : string -> string
}.

Definition request_body (table : string) (rows : list row) : json :=
  JObj [("table", JStr table); ("rows", JArr (map row_to_json rows))].

(** [Logger.upload_data(table, rows)] (lines 382-410): every exception of
    the [try] block gives [[]]. *)
Definition upload_data (e : env) (table : string) (rows : list row) : list json :=
  match rows with
  | [] => []
  | _ =>
      match http e (request_body table rows) with
      | HTransportError => []
      | HResponse status body =>
          if (status <? 200)%Z || (300 <=? status)%Z then []
          else match body with
               | None => []
               | Some b => match extract_ids b with Ok ids => ids | Exc _ => [] end
               end
      end
  end.

(** The [tables] argument of [fetch_unsent_data]. *)
Inductive tables_arg :=
| TStr (s : string)
| TList (l : list string)
| TOther.

(** Lines 352-357; [names] is [list(self.sensors.keys())]. *)
Definition normalize_tables (names : list string) (tables : tables_arg) : list string :=
  match tables with
  | TStr s => if String.eqb s "all" then names else [s]
  | TList l => l
  | TOther => []
  end.

Fixpoint fetch_tables (tables : list string) (d : db) (acc : list (string * list row))
  : res (list (string * list row)) :=
  match tables with
  | [] => Ok acc
  | t :: ts => rows <- select_unsent t d ;; fetch_tables ts d (dict_set t rows acc)
  end.

(** [Logger.fetch_unsent_data(tables)] (lines 351-380); [Ok None] is the
    bare [return]. *)
Definition fetch_unsent_data (names : list string) (tables : tables_arg) (d : db)
  : res (option (list (string * list row))) :=
  match normalize_tables names tables with
  | [] => Ok None
  | ts => all_data <- fetch_tables ts d [] ;; Ok (Some all_data)
  end.

(** The loop of [upload_unsent_data] (lines 347-349).  Each [mark_sent]
    commits on its own, so an exception raised for one table leaves the
    database as the tables before it left it: the result is the database
    and the exception that ended the loop, if any. *)
Fixpoint forward_all (e : env) (all_data : list (string * list row)) (d : db)
  : db * option exn :=
  match all_data with
  | [] => (d, None)
  | (table, rows) :: rest =>
      let ids_to_mark := upload_data e table rows in
      match mark_sent table ids_to_mark (clock e table) d with
      | Ok (_, d') => forward_all e rest d'
      | Exc err => (d, Some err)
      end
  end.

(** [Logger.upload_unsent_data(tables)] (lines 345-349): [None.items()]
    raises [AttributeError]. *)
Definition upload_unsent_data (e : env) (names : list string) (tables : tables_arg) (d : db)
  : db * option exn :=
  match fetch_unsent_data names tables d with
  | Exc err => (d, Some err)
  | Ok None => (d, Some AttributeError)
  | Ok (Some a) => forward_all e a d
  end.

End Forwarder.
(** ** The overflow formula as the spec states it *)

Module SpecLux.

Import Sensors.

(** The device's documented constants: 100 ms integration time (the
    driver's default), the 1x multiplier of [GAIN_LOW], the lux scale factor
    and the coefficients B, C and D. *)
Definition integration_time_ms : float := 100.0.
Definition gain_multiplier : float := 1.0.
Definition device_lux_scale_factor : float := 408.0.
Definition coef_B : float := 1.64.
Definition coef_C : float := 0.59.
Definition coef_D : float := 0.86.

(** An integer as the nearest binary64. *)
Definition float_of_int (n : Z) : float := SF2Prim (binary_normalize prec emax n 0 false).

(** [max(a, b)] *)
Definition fmax (a b : float) : float := if (a <? b)%float then b else a.

(** lux = max((channel0 - B*channel1)/cpl, (C*channel0 - D*channel1)/cpl) *)
Definition spec_fallback_lux (visible infrared : Z) : float :=
  let cpl := (integration_time_ms * gain_multiplier / device_lux_scale_factor)%float in
  let channel0 := float_of_int ((visible + infrared) mod 65536) in
  let channel1 := float_of_int infrared in
  fmax ((channel0 - coef_B * channel1) / cpl)%float
       ((coef_C * channel0 - coef_D * channel1) / cpl)%float.


(** Whether every character of [s] is ASCII. *)
Definition ascii_only (s : string) : bool :=
  forallb (fun a => (nat_of_ascii a <? 128)%nat) (list_ascii_of_string s).

End SpecLux.

(** A stored row with no sensor column other than [user], for examples. *)
Definition sample_row (id : Z) (sent : option string) : Forwarder.row :=
  {| Forwarder.source_id := id; Forwarder.row_tag := None; Forwarder.row_at := "T0";
     Forwarder.row_sent := sent; Forwarder.row_cols := [("user", Forwarder.JFloat 1.5)] |}.

(** ** Forwarding scenarios *)

Module FwdSpec.

Import Sensors Forwarder.

(** The ways one upload request fails: the request raises, the status is
    not 2xx, the body is not JSON, or reading the echoed ids out of the
    decoded body raises. *)
Definition upload_fails (o : http_outcome) : Prop :=
  o = HTransportError
  \/ (exists st b, o = HResponse st b /\ (st < 200 \/ 300 <= st)%Z)
  \/ (exists st, o = HResponse st None)
  \/ (exists st b err, o = HResponse st (Some b) /\ extract_ids b = Exc err).

(** The endpoint answers the upload of [rows] for [table] with a 2xx status
    and a JSON body whose [record.rows] is a list holding, for each row of
    [echoed] in turn, a dict that binds [source_id] to that row's id; the
    dicts may carry other keys (the rest of the row) and the body other
    members (jsonbin's [metadata]). *)
Definition echoes (e : env) (table : string) (rows echoed : list row) : Prop :=
  exists st b recd items,
    http e (request_body table rows) = HResponse st (Some b) /\ (200 <= st < 300)%Z /\
    py_getitem b "record" = Ok recd /\ py_getitem recd "rows" = Ok (JArr items) /\
    Forall2 (fun x r => exists kvs, x = JObj kvs
                                    /\ obj_get kvs "source_id" = Some (JInt (source_id r)))
            items echoed.



(** [n] unsent sample rows with ids [k], [k + 1], ... *)
Fixpoint unsent_rows (k : Z) (n : nat) : list row :=
  match n with
  | O => []
  | S n' => sample_row k None :: unsent_rows (k + 1) n'
  end.

(** An endpoint that accepts every request and echoes all its rows. *)
Definition echo_env (now : string) : env :=
  {| http := fun body => HResponse 200 (Some (JObj [("record", body)]));
     clock := fun _ => now |}.

End FwdSpec.

(** * Properties *)

Module SensorProps.

Import Sensors SpecLux.

#[local] Arguments Ascii.eqb : simpl never.

Lemma collect_all_raises (sensors : list sensor) (s : sensor) (now : string)
    (tag : option string) (err : exn) :
  In s sensors -> s_enabled s = true -> collect s now tag = Exc err ->
  exists err', collect_all sensors now tag = Exc err'.
Proof.
  induction sensors as [|s0 ss IH]; simpl; [tauto|].
  intros [<- | Hin] Hen Hc.
  - rewrite Hen, Hc. simpl. eauto.
  - destruct (if s_enabled s0 then collect s0 now tag else Ok None) as [r|e0]; simpl; eauto.
    destruct (IH Hin Hen Hc) as [e1 He1]. rewrite He1. simpl. eauto.
Qed.

(** C9: with every read succeeding and no configured tag, [sensor_data]
    raises [AttributeError] ([None.split]) and the whole collection pass
    aborts with an exception. *)
Theorem tsl_none_tag_aborts (rd : tsl_reads) (v i : Z) (l : float)
    (Hv : rd_visible rd = Some v) (Hi : rd_infrared rd = Some i)
    (Hv0 : v <> 0%Z) (Hi0 : i <> 0%Z) (Hl : rd_lux rd = Some l) :
  tsl_sensor_data rd None = Exc AttributeError /\
  forall (sensors : list sensor) (s : sensor) (now : string),
    In s sensors -> s_enabled s = true -> s_kind s = Tsl2591Sensor rd ->
    exists err, collect_data sensors now None = Exc err.
Proof.
  assert (H : tsl_sensor_data rd None = Exc AttributeError).
  { unfold tsl_sensor_data. rewrite Hv, Hi, Hl. simpl.
    apply Z.eqb_neq in Hv0. apply Z.eqb_neq in Hi0. rewrite Hv0, Hi0. reflexivity. }
  split; [exact H|].
  intros sensors s now Hin Hen Hk.
  destruct (collect_all_raises sensors s now None AttributeError Hin Hen) as [err Herr].
  - unfold collect, sensor_data. rewrite Hk, H. reflexivity.
  - exists err. unfold collect_data. rewrite Herr. reflexivity.
Qed.

Lemma tsl_none_tag_aborts_witness :
  (Some 5%Z = Some 5%Z /\ Some 3%Z = Some 3%Z /\ 5%Z <> 0%Z /\ 3%Z <> 0%Z
   /\ Some 7.5%float = Some 7.5%float) /\
  tsl_sensor_data {| rd_visible := Some 5%Z; rd_infrared := Some 3%Z; rd_lux := Some 7.5%float |} None
    = Exc AttributeError.
Proof.
  split; [repeat split; lia|].
  exact (proj1 (tsl_none_tag_aborts
                  {| rd_visible := Some 5%Z; rd_infrared := Some 3%Z; rd_lux := Some 7.5%float |}
                  5 3 7.5 eq_refl eq_refl ltac:(lia) ltac:(lia) eq_refl)).
Defined.

(** C6: a visible channel read successfully as 0 (no light) yields no
    reading at all: the truthiness test [if visible and infrared] takes 0
    for a failed read. *)
Theorem tsl_zero_channel_no_reading :
  tsl_sensor_data {| rd_visible := Some 0%Z; rd_infrared := Some 5%Z; rd_lux := Some 0.0%float |}
    (Some "roof") = Ok None.
Proof. reflexivity. Qed.

(** *** String lemmas *)

Lemma str_app_assoc (a b c : string) : (a ++ b) ++ c = a ++ (b ++ c).
Proof. induction a as [|x a IH]; simpl; [reflexivity | now rewrite IH]. Qed.

Lemma split_no_sep (c : ascii) (x : string) :
  PyStr.has_char c x = false -> PyStr.split c x = [x].
Proof.
  induction x as [|a x IH]; simpl; [reflexivity|].
  unfold PyStr.has_char in *. simpl.
  intros H. apply orb_false_iff in H as [Ha Hx].
  rewrite IH by exact Hx. rewrite Ascii.eqb_sym, Ha. reflexivity.
Qed.

Lemma split_app_sep (c : ascii) (x y : string) :
  PyStr.has_char c x = false ->
  PyStr.split c (x ++ String c y) = x :: PyStr.split c y.
Proof.
  induction x as [|a x IH]; simpl.
  - intros _. rewrite Ascii.eqb_refl. reflexivity.
  - unfold PyStr.has_char in *. simpl.
    intros H. apply orb_false_iff in H as [Ha Hx].
    rewrite IH by exact Hx. rewrite Ascii.eqb_sym, Ha. reflexivity.
Qed.

Lemma join_cons (c : ascii) (x : string) (xs : list string) :
  xs <> [] -> PyStr.join c (x :: xs) = x ++ String c (PyStr.join c xs).
Proof. destruct xs; [contradiction | reflexivity]. Qed.

Lemma split_join_prefix (c : ascii) (pre : list string) (x : string) (post : list string) :
  Forall (fun p => PyStr.has_char c p = false) pre -> PyStr.has_char c x = false ->
  exists rest, PyStr.split c (PyStr.join c (pre ++ x :: post)%list) = (pre ++ x :: rest)%list.
Proof.
  intros Hpre Hx. induction Hpre as [|p pre Hp Hpre IH]; cbn [List.app].
  - destruct post as [|y ys].
    + exists []. apply split_no_sep, Hx.
    + exists (PyStr.split c (PyStr.join c (y :: ys))).
      rewrite join_cons by discriminate. apply split_app_sep, Hx.
  - destruct IH as [rest Hrest]. exists rest.
    rewrite join_cons by (destruct pre; discriminate).
    rewrite split_app_sep by exact Hp. rewrite Hrest. reflexivity.
Qed.

Lemma join_snoc (c : ascii) (l : list string) (y : string) :
  l <> [] -> PyStr.join c (l ++ [y])%list = PyStr.join c l ++ String c y.
Proof.
  induction l as [|a l IH]; intros H; [contradiction|].
  destruct l as [|b l]; [reflexivity|].
  change ((a :: b :: l) ++ [y])%list with (a :: ((b :: l) ++ [y]))%list.
  rewrite join_cons by (destruct l; discriminate).
  rewrite IH by discriminate.
  rewrite (join_cons c a (b :: l)) by discriminate.
  rewrite str_app_assoc. reflexivity.
Qed.

Lemma list_ascii_of_string_app (a b : string) :
  list_ascii_of_string (a ++ b) = (list_ascii_of_string a ++ list_ascii_of_string b)%list.
Proof. induction a as [|x a IH]; simpl; [reflexivity | now rewrite IH]. Qed.

(** The value of the first option [key] of a tag is the one of the first
    comma-separated part (stripped) that binds [key]. *)
Lemma option_in_tag_prefix (key : string) (pre : list string) (p : string)
    (post : list string) (v : string) :
  Forall (fun q => PyStr.has_char "," q = false
                   /\ qs_first key (parse_qsl (PyStr.strip q)) = None) pre ->
  PyStr.has_char "," p = false ->
  qs_first key (parse_qsl (PyStr.strip p)) = Some v ->
  option_in_tag (Some (PyStr.join "," (pre ++ p :: post)%list)) key = Ok (Some v).
Proof.
  intros Hpre Hp Hv. unfold option_in_tag.
  destruct (split_join_prefix "," pre p post) as [rest Hr].
  - eapply Forall_impl; [|exact Hpre]. intros q [Hq _]. exact Hq.
  - exact Hp.
  - rewrite Hr, fold_right_app. cbn [fold_right]. rewrite Hv.
    clear Hr. f_equal.
    induction Hpre as [|q pre [_ Hq] Hpre IH]; cbn [fold_right]; [reflexivity|].
    rewrite IH. rewrite Hq. reflexivity.
Qed.

Lemma part_nonempty (key p v : string) :
  qs_first key (parse_qsl (PyStr.strip p)) = Some v -> String.eqb p "" = false.
Proof. destruct p as [|a p]; [discriminate | reflexivity]. Qed.

Lemma digits2_pos_size (m : positive) : digits2_pos m = Pos.size m.
Proof. induction m as [m IH|m IH|]; cbn; rewrite ?IH; reflexivity. Qed.

Lemma digits2_iter_xO (m k : positive) :
  digits2_pos (Pos.iter xO m k) = (digits2_pos m + k)%positive.
Proof.
  induction k as [|k IH] using Pos.peano_ind.
  - cbn. rewrite Pos.add_1_r. reflexivity.
  - rewrite Pos.iter_succ. cbn [digits2_pos]. rewrite IH, Pos.add_succ_r. reflexivity.
Qed.

Lemma digits2_pos_16 (m : positive) : (Zpos m < 65536)%Z -> (Zpos (digits2_pos m) <= 16)%Z.
Proof.
  intros Hm. rewrite digits2_pos_size.
  pose proof (Pos.size_le m) as H.
  apply Pos2Z.pos_le_pos in H. rewrite Pos2Z.inj_pow in H.
  change (Z.pos m~0) with (2 * Z.pos m)%Z in H.
  assert (H' : (2 ^ Zpos (Pos.size m) < 2 ^ 17)%Z) by (change (2 ^ 17)%Z with 131072%Z; lia).
  apply Z.pow_lt_mono_r_iff in H'; lia.
Qed.

Lemma binary_normalize_16bit (n : Z) (s : bool) :
  (0 <= n < 65536)%Z -> binary_normalize prec emax n 0 false <> S754_infinity s.
Proof.
  intros Hn. destruct n as [|m|m]; [discriminate | | lia].
  unfold binary_normalize, binary_round.
  pose proof (digits2_pos_16 m (proj2 Hn)) as Hd.
  set (d := digits2_pos m) in *.
  assert (Hf : fexp prec emax (Zpos d + 0) = (Zpos d - 53)%Z)
    by (unfold fexp, emin, prec, emax; lia).
  rewrite Hf. unfold shl_align.
  destruct (Zpos d - 53 - 0)%Z as [|k|k] eqn:Ek; [lia | lia |].
  assert (Hz : forall mx, mx = Pos.iter xO m k ->
            (fexp prec emax (Zdigits2 (Zpos mx) + (Zpos d - 53)) - (Zpos d - 53))%Z = 0%Z).
  { intros mx ->. cbn [Zdigits2]. rewrite digits2_iter_xO. fold d.
    unfold fexp, emin, prec, emax. rewrite Pos2Z.inj_add. lia. }
  unfold binary_round_aux, shr_fexp.
  rewrite (Hz _ eq_refl). cbn [shr shr_record_of_loc shr_m loc_of_shr_record round_nearest_even].
  rewrite (Hz _ eq_refl). cbn [shr shr_record_of_loc shr_m].
  replace (Z.leb (Zpos d - 53) (emax - prec)) with true
    by (symmetry; apply Z.leb_le; unfold emax, prec; lia).
  discriminate.
Qed.

Lemma int_to_float_16bit (n : Z) :
  (0 <= n < 65536)%Z -> PyFloat.int_to_float n = Ok (float_of_int n).
Proof.
  intros Hn. unfold PyFloat.int_to_float, float_of_int.
  destruct (binary_normalize prec emax n 0 false) as [| s | |] eqn:E; try reflexivity.
  exfalso. exact (binary_normalize_16bit n s Hn E).
Qed.

Lemma overflow_lux_spec (v i : Z) :
  (0 <= i < 65536)%Z -> overflow_lux v i = Ok (spec_fallback_lux v i).
Proof.
  intros Hi. unfold overflow_lux.
  change 65535%Z with (Z.ones 16).
  rewrite Z.land_ones by lia.
  rewrite (int_to_float_16bit ((v + i) mod 2 ^ 16)) by (apply Z.mod_pos_bound; lia).
  rewrite (int_to_float_16bit i) by exact Hi.
  reflexivity.
Qed.

Lemma apply_nd_spec (nd : option string) (l : float) :
  apply_nd nd l = match match nd with Some s => PyFloat.py_float s | None => None end with
                  | Some x => (l * x)%float
                  | None => l
                  end.
Proof.
  unfold apply_nd, truthy_str. destruct nd as [s|]; [|reflexivity].
  destruct (String.eqb s "") eqn:E; [|reflexivity].
  apply String.eqb_eq in E. subst s. reflexivity.
Qed.

Lemma float_neq (a b : float) :
  PrimFloat.eqb a a = true -> PrimFloat.eqb a b = false -> a <> b.
Proof. intros H1 H2 E. subst b. rewrite H1 in H2. discriminate. Qed.




Lemma join_nonempty (c : ascii) (pre post : list string) (x : string) :
  String.eqb x "" = false -> String.eqb (PyStr.join c (pre ++ x :: post)%list) "" = false.
Proof.
  intros Hx. destruct pre as [|p pre]; cbn [List.app].
  - destruct post as [|y ys]; [exact Hx|].
    rewrite join_cons by discriminate. destruct x; [discriminate|reflexivity].
  - rewrite join_cons by (destruct pre; discriminate). destruct p; reflexivity.
Qed.

(** C7 (as amended): for a tag whose first [nd] option is found in a
    comma-separated part [p] (stripped and read as a query string, so
    [roof, nd=2.0] and [site=a&nd=2.0] count; the parts before it bind no
    [nd]) with value [v], the reading's lux is the base value (the hardware
    lux, or the overflow formula when that read failed) times [float(v)]
    when [v] reads as a float, and the base value unchanged, with no
    exception, when it does not.  [v] is ASCII, where the model's
    percent-decoding is Python's. *)
Theorem tsl_nd_multiplier (rd : tsl_reads) (vis inf : Z) (pre : list string) (p : string)
    (post : list string) (v : string)
    (Hvis : rd_visible rd = Some vis) (Hinf : rd_infrared rd = Some inf)
    (Hv0 : vis <> 0%Z) (Hi0 : inf <> 0%Z)
    (Hrange : rd_lux rd = None -> (0 <= inf < 65536)%Z)
    (Hpre : Forall (fun q => PyStr.has_char "," q = false
                             /\ qs_first "nd" (parse_qsl (PyStr.strip q)) = None) pre)
    (Hp : PyStr.has_char "," p = false)
    (Hnd : qs_first "nd" (parse_qsl (PyStr.strip p)) = Some v)
    (Hascii : ascii_only v = true) :
  let base := match rd_lux rd with Some l => l | None => spec_fallback_lux vis inf end in
  exists d,
    tsl_sensor_data rd (Some (PyStr.join "," (pre ++ p :: post)%list)) = Ok (Some d)
    /\ ld_lux d = match PyFloat.py_float v with Some x => (base * x)%float | None => base end.
Proof.
  intros base. unfold tsl_sensor_data. rewrite Hvis, Hinf. unfold truthy_int.
  replace (Z.eqb vis 0) with false by (symmetry; apply Z.eqb_neq; exact Hv0).
  replace (Z.eqb inf 0) with false by (symmetry; apply Z.eqb_neq; exact Hi0).
  cbn [negb andb]. unfold base. destruct (rd_lux rd) as [l|] eqn:El.
  - cbn [bind]. rewrite (option_in_tag_prefix "nd" pre p post v Hpre Hp Hnd). cbn [bind].
    eexists; split; [reflexivity|]. cbn [ld_lux]. rewrite apply_nd_spec. reflexivity.
  - rewrite overflow_lux_spec by (apply Hrange; reflexivity). cbn [bind].
    unfold overflow_tag, truthy_str.
    rewrite join_nonempty by (exact (part_nonempty "nd" p v Hnd)). cbn [negb].
    rewrite <- join_snoc by (destruct pre; discriminate).
    rewrite <- app_assoc. cbn [List.app].
    rewrite (option_in_tag_prefix "nd" pre p (post ++ ["overflow"]) v Hpre Hp Hnd). cbn [bind].
    eexists; split; [reflexivity|]. cbn [ld_lux]. rewrite apply_nd_spec. reflexivity.
Qed.

(** A reading of 7.5 lux tagged [roof, site=a&nd=2.0,nd=abc]: the option
    sits in a part with a space before it and another query field, and a
    later [nd] is ignored. *)
Lemma tsl_nd_multiplier_witness :
  (Some 5%Z = Some 5%Z /\ Some 3%Z = Some 3%Z /\ 5%Z <> 0%Z /\ 3%Z <> 0%Z
   /\ (Some 7.5%float = None -> (0 <= 3 < 65536)%Z)
   /\ Forall (fun q => PyStr.has_char "," q = false
                       /\ qs_first "nd" (parse_qsl (PyStr.strip q)) = None) ["roof"]
   /\ PyStr.has_char "," " site=a&nd=2.0" = false
   /\ qs_first "nd" (parse_qsl (PyStr.strip " site=a&nd=2.0")) = Some "2.0"
   /\ ascii_only "2.0" = true) /\
  exists d,
    tsl_sensor_data {| rd_visible := Some 5%Z; rd_infrared := Some 3%Z; rd_lux := Some 7.5%float |}
      (Some (PyStr.join "," (["roof"] ++ " site=a&nd=2.0" :: ["nd=abc"])%list)) = Ok (Some d)
    /\ ld_lux d = match PyFloat.py_float "2.0" with
                  | Some x => (7.5 * x)%float | None => 7.5%float end.
Proof.
  assert (Hpre : Forall (fun q => PyStr.has_char "," q = false
                       /\ qs_first "nd" (parse_qsl (PyStr.strip q)) = None) ["roof"]).
  { constructor; [split; reflexivity | constructor]. }
  split.
  - split; [reflexivity|]. split; [reflexivity|]. split; [lia|]. split; [lia|].
    split; [discriminate|]. split; [exact Hpre|]. split; [reflexivity|].
    split; reflexivity.
  - exact (tsl_nd_multiplier
             {| rd_visible := Some 5%Z; rd_infrared := Some 3%Z; rd_lux := Some 7.5%float |}
             5 3 ["roof"] " site=a&nd=2.0" ["nd=abc"] "2.0" eq_refl eq_refl ltac:(lia) ltac:(lia)
             ltac:(discriminate) Hpre eq_refl eq_refl eq_refl).
Defined.

(** C7 as stated fails: a tag with a well-formed [nd=2.0] after a malformed
    [nd=abc] leaves the lux unscaled, since only the first [nd] counts. *)
Lemma tsl_nd_first_option_wins :
  match tsl_sensor_data {| rd_visible := Some 5%Z; rd_infrared := Some 3%Z;
                           rd_lux := Some 7.5%float |} (Some "nd=abc,nd=2.0") with
  | Ok (Some d) => ld_lux d = 7.5%float /\ ld_lux d <> (7.5 * 2.0)%float
  | _ => False
  end.
Proof. vm_compute. split; [reflexivity|]. apply float_neq; reflexivity. Qed.

End SensorProps.

Module ForwarderProps.

Import Sensors Forwarder FwdSpec.

(** *** Tables *)

Lemma lookup_set_table {A} (t : string) (v : A) (l : list (string * A)) :
  lookup t (set_table t v l) = match lookup t l with Some _ => Some v | None => None end.
Proof.
  induction l as [|[k w] l IH]; cbn [lookup set_table]; [reflexivity|].
  destruct (String.eqb t k) eqn:E; cbn [lookup]; rewrite E; [reflexivity | exact IH].
Qed.

Lemma set_table_same {A} (t : string) (v : A) (l : list (string * A)) :
  lookup t l = Some v -> set_table t v l = l.
Proof.
  induction l as [|[k w] l IH]; cbn [lookup set_table]; [discriminate|].
  destruct (String.eqb t k); intros H.
  - injection H as ->. reflexivity.
  - rewrite IH by exact H. reflexivity.
Qed.

Lemma set_table_twice {A} (t : string) (v w : A) (l : list (string * A)) :
  set_table t v (set_table t w l) = set_table t v l.
Proof.
  induction l as [|[k u] l IH]; cbn [set_table]; [reflexivity|].
  destruct (String.eqb t k) eqn:E; cbn [set_table]; rewrite E; [reflexivity|].
  rewrite IH. reflexivity.
Qed.

(** *** Dictionaries *)

Lemma lookup_dict_set {A} (k k' : string) (v : A) (l : list (string * A)) :
  lookup k (dict_set k' v l) = if String.eqb k k' then Some v else lookup k l.
Proof.
  induction l as [|[k0 w] l IH]; cbn [dict_set lookup]; [reflexivity|].
  destruct (String.eqb k' k0) eqn:E0.
  - apply String.eqb_eq in E0. subst k0. cbn [lookup].
    destruct (String.eqb k k'); reflexivity.
  - cbn [lookup]. rewrite IH.
    destruct (String.eqb k k0) eqn:E1; [|reflexivity].
    apply String.eqb_eq in E1. subst k0.
    destruct (String.eqb k k') eqn:E2; [|reflexivity].
    apply String.eqb_eq in E2. subst k'. rewrite String.eqb_refl in E0. discriminate.
Qed.

Lemma keys_dict_set {A} (k : string) (v : A) (l : list (string * A)) :
  map fst (dict_set k v l) =
    if existsb (String.eqb k) (map fst l) then map fst l else (map fst l ++ [k])%list.
Proof.
  induction l as [|[k0 w] l IH]; cbn [dict_set map existsb fst]; [reflexivity|].
  destruct (String.eqb k k0) eqn:E; cbn [map fst orb]; [reflexivity|].
  rewrite IH. destruct (existsb (String.eqb k) (map fst l)); reflexivity.
Qed.

Lemma existsb_eqb_In (k : string) (l : list string) :
  existsb (String.eqb k) l = true <-> In k l.
Proof.
  rewrite existsb_exists. split.
  - intros (x & Hx & E). apply String.eqb_eq in E. subst x. exact Hx.
  - intros H. exists k. split; [exact H | apply String.eqb_refl].
Qed.

Lemma nodup_dict_set {A} (k : string) (v : A) (l : list (string * A)) :
  NoDup (map fst l) -> NoDup (map fst (dict_set k v l)).
Proof.
  intros H. rewrite keys_dict_set.
  destruct (existsb (String.eqb k) (map fst l)) eqn:E; [exact H|].
  apply NoDup_app; [exact H | repeat constructor; intros [] |].
  intros x Hx [<- | []]. apply (proj2 (existsb_eqb_In k _)) in Hx. congruence.
Qed.

Lemma in_keys_dict_set {A} (k x : string) (v : A) (l : list (string * A)) :
  In x (map fst (dict_set k v l)) -> x = k \/ In x (map fst l).
Proof.
  rewrite keys_dict_set. destruct (existsb (String.eqb k) (map fst l)); [right; exact H|].
  intros H. apply in_app_or in H as [H | [<- | []]]; [right; exact H | left; reflexivity].
Qed.

Lemma lookup_set_table_other {A} (t t' : string) (v : A) (l : list (string * A)) :
  t' <> t -> lookup t' (set_table t v l) = lookup t' l.
Proof.
  intros Hne. induction l as [|[k w] l IH]; cbn [set_table]; [reflexivity|].
  destruct (String.eqb t k) eqn:E; cbn [lookup].
  - apply String.eqb_eq in E. subst k.
    destruct (String.eqb t' t) eqn:E'; [apply String.eqb_eq in E'; contradiction|reflexivity].
  - rewrite IH. reflexivity.
Qed.

Lemma keys_set_table {A} (t : string) (v : A) (l : list (string * A)) :
  map fst (set_table t v l) = map fst l.
Proof.
  induction l as [|[k w] l IH]; cbn [set_table]; [reflexivity|].
  destruct (String.eqb t k); cbn [map fst]; [reflexivity|]. rewrite IH. reflexivity.
Qed.

(** *** The [UPDATE] statement on integer ids *)

Lemma bind_params_ints (ids : list Z) :
  forallb in_int64 ids = true -> bind_params (map JInt ids) = Ok (map SqlInt ids).
Proof.
  induction ids as [|z ids IH]; cbn [map bind_params forallb]; [reflexivity|].
  intros H. apply andb_true_iff in H as [Hz Hids].
  unfold bind_param. rewrite Hz. cbn [bind]. rewrite IH by exact Hids. reflexivity.
Qed.

Lemma matches_ints (ids : list Z) (r : row) :
  matches (map SqlInt ids) r = existsb (fun z => Z.eqb z (source_id r)) ids.
Proof.
  unfold matches. induction ids as [|z ids IH]; cbn [map existsb]; [reflexivity|].
  rewrite IH. reflexivity.
Qed.

Lemma sql_update_sent_ints (t now : string) (ids : list Z) (rows : list row) (d : db) :
  lookup t d = Some rows -> forallb in_int64 ids = true ->
  (List.length ids < SQLITE_MAX_VARIABLE_NUMBER)%nat ->
  sql_update_sent t now (map JInt ids) d =
    Ok (List.length (filter (fun r => existsb (fun z => Z.eqb z (source_id r)) ids) rows),
        set_table t (map (fun r => if existsb (fun z => Z.eqb z (source_id r)) ids
                                   then mark_row now r else r) rows) d).
Proof.
  intros Hd Hint Hlen. unfold sql_update_sent.
  rewrite length_map.
  replace (Nat.ltb SQLITE_MAX_VARIABLE_NUMBER (S (List.length ids))) with false
    by (symmetry; apply Nat.ltb_ge; exact Hlen).
  rewrite bind_params_ints by exact Hint. cbn [bind]. rewrite Hd.
  f_equal. f_equal.
  - f_equal. apply filter_ext. intros r. apply matches_ints.
  - f_equal. apply map_ext. intros r. rewrite matches_ints. reflexivity.
Qed.

Lemma mark_sent_update (t now : string) (ids : list json) (d : db) :
  ids <> [] ->
  mark_sent t ids now d = match sql_update_sent t now ids d with
                          | Ok (_, d') => Ok (PNone, d')
                          | Exc err => Exc err
                          end.
Proof.
  intros H. unfold mark_sent. destruct ids as [|j ids]; [contradiction|].
  destruct (sql_update_sent t now (j :: ids) d) as [[n d']|err]; reflexivity.
Qed.

Lemma mark_sent_ints (t now : string) (ids : list Z) (rows : list row) (d : db) :
  lookup t d = Some rows -> forallb in_int64 ids = true ->
  (List.length ids < SQLITE_MAX_VARIABLE_NUMBER)%nat ->
  mark_sent t (map JInt ids) now d =
    Ok (PNone, set_table t (map (fun r => if existsb (fun z => Z.eqb z (source_id r)) ids
                                          then mark_row now r else r) rows) d).
Proof.
  intros Hd Hint Hlen. destruct ids as [|z ids'].
  - cbn [map existsb]. rewrite map_id, set_table_same by exact Hd. reflexivity.
  - rewrite mark_sent_update by discriminate.
    rewrite sql_update_sent_ints with (rows := rows) by assumption. reflexivity.
Qed.

Lemma mark_twice (ids : list Z) (now1 now2 : string) (rows : list row) :
  map (fun r => if existsb (fun z => Z.eqb z (source_id r)) ids then mark_row now2 r else r)
      (map (fun r => if existsb (fun z => Z.eqb z (source_id r)) ids then mark_row now1 r else r)
           rows)
  = map (fun r => if existsb (fun z => Z.eqb z (source_id r)) ids then mark_row now2 r else r)
        rows.
Proof.
  rewrite map_map. apply map_ext. intros r.
  destruct (existsb (fun z => Z.eqb z (source_id r)) ids) eqn:E.
  - change (source_id (mark_row now1 r)) with (source_id r). rewrite E. reflexivity.
  - rewrite E. reflexivity.
Qed.

Lemma count_after_mark (ids : list Z) (now : string) (rows : list row) :
  List.length (filter (fun r => existsb (fun z => Z.eqb z (source_id r)) ids)
     (map (fun r => if existsb (fun z => Z.eqb z (source_id r)) ids then mark_row now r else r)
          rows))
  = List.length (filter (fun r => existsb (fun z => Z.eqb z (source_id r)) ids) rows).
Proof.
  induction rows as [|r rows IH]; cbn [map filter]; [reflexivity|].
  destruct (existsb (fun z => Z.eqb z (source_id r)) ids) eqn:E.
  - change (source_id (mark_row now r)) with (source_id r). rewrite E.
    cbn [List.length]. rewrite IH. reflexivity.
  - rewrite E. exact IH.
Qed.

(** *** Reading the echoed ids *)

Lemma row_has_source_id (r : row) :
  obj_get (row_cols r) "source_id" = None ->
  py_contains "source_id" (row_to_json r) = Ok true
  /\ py_getitem (row_to_json r) "source_id" = Ok (JInt (source_id r)).
Proof.
  intros H. unfold py_contains, py_getitem, row_to_json.
  cbn [List.app obj_get]. rewrite H. split; reflexivity.
Qed.

Lemma collect_ids_rows (rs : list row) :
  Forall (fun r => obj_get (row_cols r) "source_id" = None) rs ->
  collect_ids (map row_to_json rs) = Ok (map (fun r => JInt (source_id r)) rs).
Proof.
  induction 1 as [|r rs Hr Hrs IH]; [reflexivity|].
  cbn [map collect_ids]. rewrite IH.
  destruct (row_has_source_id r Hr) as [H1 H2]. rewrite H1. cbn [bind].
  rewrite H2. reflexivity.
Qed.




(** *** The forwarding loop *)

Lemma failed_upload_nil (e : env) (t : string) (rows : list row) :
  upload_fails (http e (request_body t rows)) -> upload_data e t rows = [].
Proof.
  unfold upload_fails, upload_data. intros Hf. destruct rows as [|r rows]; [reflexivity|].
  destruct Hf as [H | [(st & b & H & Hst) | [(st & H) | (st & b & err & H & Hx)]]];
    rewrite H; [reflexivity | | |].
  - destruct Hst as [Hst | Hst].
    + apply Z.ltb_lt in Hst. rewrite Hst. reflexivity.
    + apply Z.leb_le in Hst. rewrite Hst, orb_true_r. reflexivity.
  - destruct (_ || _); reflexivity.
  - rewrite Hx. destruct (_ || _); reflexivity.
Qed.

Lemma forward_all_app (e : env) (pre rest : list (string * list row)) (d : db) :
  forward_all e (pre ++ rest) d =
    match forward_all e pre d with
    | (d', None) => forward_all e rest d'
    | r => r
    end.
Proof.
  revert d. induction pre as [|[t rows] pre IH]; intros d; [reflexivity|].
  cbn [List.app forward_all].
  destruct (mark_sent t (upload_data e t rows) (clock e t) d) as [[p d']|err]; [|reflexivity].
  apply IH.
Qed.

Lemma fetch_tables_missing (ts : list string) (t : string) (d : db)
    (acc : list (string * list row)) :
  In t ts -> lookup t d = None -> fetch_tables ts d acc = Exc StorageError.
Proof.
  revert acc. induction ts as [|t0 ts IH]; intros acc Hin Hd; [destruct Hin|].
  cbn [fetch_tables]. unfold select_unsent.
  destruct Hin as [<- | Hin].
  - rewrite Hd. reflexivity.
  - destruct (lookup t0 d); [|reflexivity]. cbn [bind]. apply IH; assumption.
Qed.

(** *** Forwarding with echoed acknowledgements *)

Lemma max_variable_number_ge_999 : (999 <= SQLITE_MAX_VARIABLE_NUMBER)%nat.
Proof. apply Nat.leb_le. reflexivity. Qed.

Lemma collect_ids_echoed (items : list json) (echoed : list row) :
  Forall2 (fun x r => exists kvs, x = JObj kvs
                                  /\ obj_get kvs "source_id" = Some (JInt (source_id r)))
          items echoed ->
  collect_ids items = Ok (map JInt (map source_id echoed)).
Proof.
  induction 1 as [|x r items echoed (kvs & -> & Hk) _ IH]; [reflexivity|].
  cbn [collect_ids py_contains py_getitem]. rewrite Hk. cbn [bind]. rewrite IH. reflexivity.
Qed.

Lemma upload_data_echoes (e : env) (t : string) (rows echoed : list row) :
  incl echoed rows -> echoes e t rows echoed ->
  upload_data e t rows = map JInt (map source_id echoed).
Proof.
  intros Hsub (st & b & recd & items & Hh & Hst & Hr & Hrs & Hf).
  unfold upload_data. destruct rows as [|u us].
  - destruct echoed as [|r echoed']; [reflexivity|].
    exfalso. apply (Hsub r). left. reflexivity.
  - rewrite Hh.
    replace ((st <? 200)%Z || (300 <=? st)%Z) with false
      by (symmetry; apply orb_false_iff; split; [apply Z.ltb_ge | apply Z.leb_gt]; lia).
    unfold extract_ids. rewrite Hr. cbn [bind]. rewrite Hrs. cbn [bind py_iter].
    rewrite (collect_ids_echoed items echoed Hf). reflexivity.
Qed.

Lemma in_dict_set {A} (k t : string) (v r : A) (l : list (string * A)) :
  In (t, r) (dict_set k v l) -> (t = k /\ r = v) \/ In (t, r) l.
Proof.
  induction l as [|[k0 w] l IH]; cbn [dict_set].
  - intros [E | []]. injection E as <- <-. left. split; reflexivity.
  - destruct (String.eqb k k0) eqn:E.
    + apply String.eqb_eq in E. subst k0. intros [E' | H].
      * injection E' as <- <-. left. split; reflexivity.
      * right. right. exact H.
    + intros [E' | H]; [right; left; exact E'|].
      destruct (IH H) as [H' | H']; [left; exact H' | right; right; exact H'].
Qed.

Lemma fold_dict_set (f : string -> list row) (ts : list string) :
  forall acc : list (string * list row),
  (NoDup (map fst acc) ->
   NoDup (map fst (fold_left (fun acc t => dict_set t (f t) acc) ts acc))) /\
  (forall t r, In (t, r) (fold_left (fun acc t => dict_set t (f t) acc) ts acc) ->
   In (t, r) acc \/ (In t ts /\ r = f t)) /\
  (forall t, In t (map fst (fold_left (fun acc t => dict_set t (f t) acc) ts acc))
             <-> In t (map fst acc) \/ In t ts).
Proof.
  induction ts as [|u ts IH]; intros acc; cbn [fold_left].
  - split; [intros H; exact H|]. split; [intros t r H; left; exact H|].
    intros t. split; [intros H; left; exact H | intros [H | []]; exact H].
  - destruct (IH (dict_set u (f u) acc)) as (H1 & H2 & H3). split; [|split].
    + intros Hnd. apply H1, nodup_dict_set, Hnd.
    + intros t r Hin. destruct (H2 t r Hin) as [H | [Ht Hr]].
      * destruct (in_dict_set u t (f u) r acc H) as [[-> ->] | H'].
        -- right. split; [left; reflexivity | reflexivity].
        -- left. exact H'.
      * right. split; [right; exact Ht | exact Hr].
    + intros t. rewrite H3, keys_dict_set.
      destruct (existsb (String.eqb u) (map fst acc)) eqn:E.
      * apply existsb_eqb_In in E. cbn [In]. split.
        -- intros [H | H]; [left; exact H | right; right; exact H].
        -- intros [H | [<- | H]]; [left; exact H | left; exact E | right; exact H].
      * rewrite in_app_iff. cbn [In]. split.
        -- intros [[H | [<- | []]] | H]; [left; exact H | right; left; reflexivity |
                                          right; right; exact H].
        -- intros [H | [<- | H]]; [left; left; exact H | left; right; left; reflexivity |
                                   right; exact H].
Qed.

Lemma fetch_tables_all (ts : list string) (d : db) (f : string -> list row) :
  (forall t, In t ts -> exists rows, lookup t d = Some rows /\ f t = filter is_unsent rows) ->
  forall acc, fetch_tables ts d acc = Ok (fold_left (fun acc t => dict_set t (f t) acc) ts acc).
Proof.
  induction ts as [|u ts IH]; intros Hf acc; [reflexivity|].
  cbn [fetch_tables fold_left]. unfold select_unsent.
  destruct (Hf u (or_introl eq_refl)) as (rows & Hd & Hu). rewrite Hd. cbn [bind].
  rewrite <- Hu. apply IH. intros t Ht. apply Hf. right. exact Ht.
Qed.

Lemma forward_all_echoes (e : env) (echoed : string -> list row) :
  forall (a : list (string * list row)) (d : db),
  NoDup (map fst a) ->
  (forall t r, In (t, r) a -> exists rows, lookup t d = Some rows /\ r = filter is_unsent rows /\
     incl (echoed t) r /\ echoes e t r (echoed t) /\
     forallb in_int64 (map source_id (echoed t)) = true /\
     (List.length (echoed t) < SQLITE_MAX_VARIABLE_NUMBER)%nat) ->
  snd (forward_all e a d) = None /\
  map fst (fst (forward_all e a d)) = map fst d /\
  forall t, lookup t (fst (forward_all e a d)) =
    match lookup t d with
    | Some rows =>
        Some (if existsb (String.eqb t) (map fst a)
              then map (fun r => if existsb (fun z => Z.eqb z (source_id r))
                                            (map source_id (echoed t))
                                 then mark_row (clock e t) r else r) rows
              else rows)
    | None => None
    end.
Proof.
  induction a as [|[t r] a IH]; intros d Hnd Ha.
  - cbn. split; [reflexivity|]. split; [reflexivity|].
    intros t. destruct (lookup t d); reflexivity.
  - cbn [map fst] in Hnd. inversion Hnd as [|? ? Hnin Hnd']. subst.
    destruct (Ha t r (or_introl eq_refl)) as (rows & Hd & -> & Hsub & Hech & Hint & Hlen).
    cbn [forward_all].
    rewrite (upload_data_echoes e t _ _ Hsub Hech).
    rewrite (mark_sent_ints t (clock e t) (map source_id (echoed t)) rows d Hd Hint)
      by (rewrite length_map; exact Hlen).
    destruct (IH (set_table t (map (fun r => if existsb (fun z => Z.eqb z (source_id r))
                                            (map source_id (echoed t))
                                            then mark_row (clock e t) r else r) rows) d) Hnd')
      as (Hs & Hk & Hl).
    { intros t' r' Hin. destruct (Ha t' r' (or_intror Hin)) as (rows' & Hd' & HH).
      exists rows'. split; [|exact HH].
      rewrite lookup_set_table_other; [exact Hd'|].
      intros ->. apply Hnin. apply (in_map fst) in Hin. exact Hin. }
    split; [exact Hs|]. split; [rewrite Hk; apply keys_set_table|].
    intros x. rewrite Hl. cbn [existsb map fst].
    destruct (String.eqb x t) eqn:E.
    + apply String.eqb_eq in E. subst x. rewrite lookup_set_table, Hd.
      destruct (existsb (String.eqb t) (map fst a)) eqn:E2; [|reflexivity].
      apply existsb_eqb_In in E2. contradiction.
    + rewrite lookup_set_table_other
        by (intros ->; rewrite String.eqb_refl in E; discriminate).
      reflexivity.
Qed.

Lemma unsent_rows_unsent (k : Z) (n : nat) : filter is_unsent (unsent_rows k n) = unsent_rows k n.
Proof. revert k. induction n as [|n IH]; intros k; [reflexivity|]. cbn. rewrite IH. reflexivity. Qed.

Lemma unsent_rows_keys (k : Z) (n : nat) :
  Forall (fun r => obj_get (row_cols r) "source_id" = None) (unsent_rows k n).
Proof. revert k. induction n as [|n IH]; intros k; constructor; [reflexivity | apply IH]. Qed.

Lemma length_unsent_rows (k : Z) (n : nat) : List.length (unsent_rows k n) = n.
Proof. revert k. induction n as [|n IH]; intros k; [reflexivity|]. cbn. rewrite IH. reflexivity. Qed.

Lemma echo_all_raises (now t : string) (rows : list row) :
  filter is_unsent rows = rows ->
  Forall (fun r => obj_get (row_cols r) "source_id" = None) rows ->
  (SQLITE_MAX_VARIABLE_NUMBER < S (List.length rows))%nat ->
  upload_unsent_data (echo_env now) [] (TList [t]) [(t, rows)] = ([(t, rows)], Some StorageError).
Proof.
  intros Hf Hk Hlen. unfold upload_unsent_data, fetch_unsent_data.
  cbn [normalize_tables fetch_tables]. unfold select_unsent. cbn [lookup].
  rewrite String.eqb_refl. cbn [bind dict_set fetch_tables forward_all]. rewrite Hf.
  assert (Hup : upload_data (echo_env now) t rows = map JInt (map source_id rows)).
  { assert (Hx : extract_ids (JObj [("record", request_body t rows)])
                 = Ok (map JInt (map source_id rows))).
    { unfold extract_ids, request_body. cbn. rewrite collect_ids_rows by exact Hk.
      rewrite map_map. reflexivity. }
    unfold upload_data. destruct rows as [|r rs].
    - cbn [List.length] in Hlen. apply Nat.lt_1_r in Hlen. discriminate Hlen.
    - cbn [http echo_env]. rewrite Hx. reflexivity. }
  rewrite Hup. unfold mark_sent.
  destruct rows as [|r rs]; [cbn [List.length] in Hlen; apply Nat.lt_1_r in Hlen; discriminate Hlen|].
  cbn [map]. unfold sql_update_sent.
  rewrite (proj2 (Nat.ltb_lt _ _)); [reflexivity|].
  rewrite <- (length_map source_id), <- (length_map JInt) in Hlen. exact Hlen.
Qed.

(** C1 (as amended): [mark_sent] sets [sent] to the current time on every
    row whose [source_id] is in the list, whether or not it was already
    sent; an empty list changes nothing; a second call with the same ids
    updates the same rows again (its rowcount is the same, not zero) and
    overwrites their [sent] timestamps. *)
Theorem mark_sent_overwrites (t now1 now2 : string) (ids : list Z) (rows : list row) (d : db)
    (Hd : lookup t d = Some rows) (Hint : forallb in_int64 ids = true)
    (Hlen : (List.length ids < SQLITE_MAX_VARIABLE_NUMBER)%nat) :
  mark_sent t [] now1 d = Ok (PNone, d) /\
  mark_sent t (map JInt ids) now1 d =
    Ok (PNone, set_table t (map (fun r => if existsb (fun z => Z.eqb z (source_id r)) ids
                                          then mark_row now1 r else r) rows) d) /\
  sql_update_sent t now2 (map JInt ids)
      (set_table t (map (fun r => if existsb (fun z => Z.eqb z (source_id r)) ids
                                  then mark_row now1 r else r) rows) d)
    = Ok (List.length (filter (fun r => existsb (fun z => Z.eqb z (source_id r)) ids) rows),
          set_table t (map (fun r => if existsb (fun z => Z.eqb z (source_id r)) ids
                                     then mark_row now2 r else r) rows) d).
Proof.
  split; [reflexivity|]. split; [apply mark_sent_ints; assumption|].
  rewrite sql_update_sent_ints
    with (rows := map (fun r => if existsb (fun z => Z.eqb z (source_id r)) ids
                                then mark_row now1 r else r) rows) by
    (try assumption; rewrite lookup_set_table, Hd; reflexivity).
  rewrite count_after_mark, mark_twice, set_table_twice. reflexivity.
Qed.

Lemma mark_sent_overwrites_witness :
  (lookup "cpu" [("cpu", [sample_row 1 None; sample_row 2 (Some "T0")])]
     = Some [sample_row 1 None; sample_row 2 (Some "T0")]
   /\ forallb in_int64 [1%Z; 2%Z] = true
   /\ (List.length [1%Z; 2%Z] < SQLITE_MAX_VARIABLE_NUMBER)%nat) /\
  (mark_sent "cpu" [] "T1" [("cpu", [sample_row 1 None; sample_row 2 (Some "T0")])]
     = Ok (PNone, [("cpu", [sample_row 1 None; sample_row 2 (Some "T0")])]) /\
   mark_sent "cpu" (map JInt [1%Z; 2%Z]) "T1" [("cpu", [sample_row 1 None; sample_row 2 (Some "T0")])] =
     Ok (PNone, set_table "cpu"
                  (map (fun r => if existsb (fun z => Z.eqb z (source_id r)) [1%Z; 2%Z]
                                 then mark_row "T1" r else r)
                       [sample_row 1 None; sample_row 2 (Some "T0")])
                  [("cpu", [sample_row 1 None; sample_row 2 (Some "T0")])]) /\
   sql_update_sent "cpu" "T2" (map JInt [1%Z; 2%Z])
      (set_table "cpu"
         (map (fun r => if existsb (fun z => Z.eqb z (source_id r)) [1%Z; 2%Z]
                        then mark_row "T1" r else r)
              [sample_row 1 None; sample_row 2 (Some "T0")])
         [("cpu", [sample_row 1 None; sample_row 2 (Some "T0")])])
    = Ok (List.length (filter (fun r => existsb (fun z => Z.eqb z (source_id r)) [1%Z; 2%Z])
                         [sample_row 1 None; sample_row 2 (Some "T0")]),
          set_table "cpu"
            (map (fun r => if existsb (fun z => Z.eqb z (source_id r)) [1%Z; 2%Z]
                           then mark_row "T2" r else r)
                 [sample_row 1 None; sample_row 2 (Some "T0")])
            [("cpu", [sample_row 1 None; sample_row 2 (Some "T0")])])).
Proof.
  split; [split; [reflexivity | split; [vm_compute; reflexivity | apply Nat.ltb_lt; reflexivity]]|].
  apply mark_sent_overwrites; [reflexivity | vm_compute; reflexivity | apply Nat.ltb_lt; reflexivity].
Defined.

(** C1 as stated fails: a row already marked at [T1] is updated again by a
    second call, and its [sent] becomes [T2]. *)
Lemma mark_sent_second_call_overwrites :
  match mark_sent "cpu" [JInt 1] "T1" [("cpu", [sample_row 1 None])] with
  | Ok (_, d1) =>
      match sql_update_sent "cpu" "T2" [JInt 1] d1 with
      | Ok (n, d2) =>
          n = 1%nat /\ option_map (map row_sent) (lookup "cpu" d2) = Some [Some "T2"]
      | Exc _ => False
      end
  | Exc _ => False
  end.
Proof. vm_compute. split; reflexivity. Qed.

(** C8 (as amended): [mark_sent] returns [None], never a count; the
    rowcount of its [UPDATE] counts every row whose [source_id] is in the
    list, already sent or not. *)
Theorem mark_sent_returns_none (t now : string) (ids : list Z) (rows : list row) (d : db)
    (Hd : lookup t d = Some rows) (Hint : forallb in_int64 ids = true)
    (Hlen : (List.length ids < SQLITE_MAX_VARIABLE_NUMBER)%nat) :
  (forall (t' now' : string) (js : list json) (d0 d1 : db) (p : pyval),
     mark_sent t' js now' d0 = Ok (p, d1) -> p = PNone) /\
  exists d', sql_update_sent t now (map JInt ids) d
    = Ok (List.length (filter (fun r => existsb (fun z => Z.eqb z (source_id r)) ids) rows), d').
Proof.
  split.
  - intros t' now' js d0 d1 p. unfold mark_sent. destruct js as [|j js].
    + intros H. injection H as <- _. reflexivity.
    + destruct (sql_update_sent t' now' (j :: js) d0) as [[n d']|err]; cbn [bind].
      * intros H. injection H as <- _. reflexivity.
      * discriminate.
  - eexists. apply sql_update_sent_ints; assumption.
Qed.

Lemma mark_sent_returns_none_witness :
  (lookup "cpu" [("cpu", [sample_row 1 (Some "T0"); sample_row 2 None])]
     = Some [sample_row 1 (Some "T0"); sample_row 2 None]
   /\ forallb in_int64 [1%Z; 2%Z] = true
   /\ (List.length [1%Z; 2%Z] < SQLITE_MAX_VARIABLE_NUMBER)%nat) /\
  exists d', sql_update_sent "cpu" "T1" (map JInt [1%Z; 2%Z])
               [("cpu", [sample_row 1 (Some "T0"); sample_row 2 None])]
    = Ok (List.length (filter (fun r => existsb (fun z => Z.eqb z (source_id r)) [1%Z; 2%Z])
                        [sample_row 1 (Some "T0"); sample_row 2 None]), d').
Proof.
  split; [split; [reflexivity | split; [vm_compute; reflexivity | apply Nat.ltb_lt; reflexivity]]|].
  exact (proj2 (mark_sent_returns_none "cpu" "T1" [1%Z; 2%Z]
                  [sample_row 1 (Some "T0"); sample_row 2 None]
                  [("cpu", [sample_row 1 (Some "T0"); sample_row 2 None])]
                  eq_refl ltac:(vm_compute; reflexivity) ltac:(apply Nat.ltb_lt; reflexivity))).
Defined.

(** C8 as stated fails: with row 1 already sent, marking ids 1 and 2
    returns [None], and the rowcount is 2, not the single row that was
    still unsent. *)
Lemma mark_sent_count_counterexample :
  match mark_sent "cpu" [JInt 1; JInt 2] "T1"
          [("cpu", [sample_row 1 (Some "T0"); sample_row 2 None])] with
  | Ok (p, _) => p = PNone
  | Exc _ => False
  end /\
  match sql_update_sent "cpu" "T1" [JInt 1; JInt 2]
          [("cpu", [sample_row 1 (Some "T0"); sample_row 2 None])] with
  | Ok (n, _) => n = 2%nat
  | Exc _ => False
  end.
Proof. vm_compute. split; reflexivity. Qed.

(** C2 (corrected): in a forwarding cycle where, for every requested
    table, the 2xx response's [record.rows] lists dicts carrying the
    [source_id]s of a subset of the uploaded unsent rows, no error is
    reported, the tables keep their names, and in every requested table
    exactly the rows whose [source_id] is echoed are marked sent with the
    cycle's clock, the other rows staying as they were.  The table names are
    plain (so that the exact-case [lookup] agrees with SQLite's), and each
    table echoes fewer than 999 ids, within the host-parameter limit of
    every SQLite build. *)
Theorem forward_echoed_subset (e : env) (names : list string) (tables : tables_arg) (d : db)
    (echoed : string -> list row)
    (Hne : normalize_tables names tables <> [])
    (Hplain : forallb sql_plain_name (normalize_tables names tables) = true)
    (Hnames : forallb sql_plain_name (map fst d) = true)
    (Hok : forall t, In t (normalize_tables names tables) ->
       exists rows, lookup t d = Some rows /\ incl (echoed t) (filter is_unsent rows) /\
         echoes e t (filter is_unsent rows) (echoed t) /\
         forallb in_int64 (map source_id (echoed t)) = true /\
         (List.length (echoed t) < 999)%nat) :
  snd (upload_unsent_data e names tables d) = None /\
  map fst (fst (upload_unsent_data e names tables d)) = map fst d /\
  forall t, lookup t (fst (upload_unsent_data e names tables d)) =
    match lookup t d with
    | Some rows =>
        Some (if existsb (String.eqb t) (normalize_tables names tables)
              then map (fun r => if existsb (fun z => Z.eqb z (source_id r))
                                            (map source_id (echoed t))
                                 then mark_row (clock e t) r else r) rows
              else rows)
    | None => None
    end.
Proof.
  unfold upload_unsent_data, fetch_unsent_data.
  revert Hne Hplain Hok. destruct (normalize_tables names tables) as [|t0 ts] eqn:En;
    [intros Hne; contradiction Hne; reflexivity|].
  intros _ _ Hok.
  set (f := fun t => match lookup t d with Some rows => filter is_unsent rows | None => [] end).
  rewrite (fetch_tables_all (t0 :: ts) d f) by
    (intros t Ht; destruct (Hok t Ht) as (rows & Hd & _); exists rows; split;
     [exact Hd | unfold f; rewrite Hd; reflexivity]).
  cbn [bind].
  destruct (fold_dict_set f (t0 :: ts) []) as (Hnd & Hin & Hkeys).
  destruct (forward_all_echoes e echoed
              (fold_left (fun acc t => dict_set t (f t) acc) (t0 :: ts) []) d)
    as (Hs & Hk & Hl).
  - apply Hnd. constructor.
  - intros t r Htr. destruct (Hin t r Htr) as [[] | [Ht Hr]].
    destruct (Hok t Ht) as (rows & Hd & HH). exists rows. split; [exact Hd|].
    split; [rewrite Hr; unfold f; rewrite Hd; reflexivity|].
    rewrite Hr. unfold f. rewrite Hd. destruct HH as (H1 & H2 & H3 & H4).
    split; [exact H1|]. split; [exact H2|]. split; [exact H3|].
    pose proof max_variable_number_ge_999. lia.
  - split; [exact Hs|]. split; [exact Hk|].
    intros t. rewrite Hl.
    replace (existsb (String.eqb t) (map fst (fold_left (fun acc t => dict_set t (f t) acc)
                                                 (t0 :: ts) [])))
      with (existsb (String.eqb t) (t0 :: ts)); [reflexivity|].
    destruct (existsb (String.eqb t) (t0 :: ts)) eqn:E1;
      destruct (existsb (String.eqb t) (map fst (fold_left (fun acc t => dict_set t (f t) acc)
                                                    (t0 :: ts) []))) eqn:E2;
      try reflexivity.
    + apply existsb_eqb_In in E1. apply (fun H => proj2 (Hkeys t) (or_intror H)) in E1.
      apply existsb_eqb_In in E1. congruence.
    + apply existsb_eqb_In in E2. apply (proj1 (Hkeys t)) in E2.
      destruct E2 as [[] | E2]. apply existsb_eqb_In in E2. congruence.
Qed.

(** Five unsent rows of [cpu] and four rows of [luminosity] (one already
    sent); the endpoint echoes the ids 1, 3 and 5 in dicts with other keys
    and a metadata member. *)
Lemma forward_echoed_subset_witness :
  let e := {| http := fun _ => HResponse 200 (Some (JObj
                 [("record", JObj [("table", JStr "cpu");
                                   ("rows", JArr [JObj [("source_id", JInt 1)];
                                                  JObj [("source_id", JInt 3); ("user", JFloat 1.5%float)];
                                                  JObj [("source_id", JInt 5)]])]);
                  ("metadata", JObj [("parentId", JStr "b1"); ("private", JBool true)])]));
              clock := fun _ => "T1" |} in
  let d := [("cpu", map (fun i => sample_row i None) [1; 2; 3; 4; 5]%Z);
            ("luminosity", [sample_row 1 None; sample_row 2 (Some "T0");
                            sample_row 3 None; sample_row 5 None])] in
  let echoed := fun _ : string => map (fun i => sample_row i None) [1; 3; 5]%Z in
  (normalize_tables ["cpu"; "luminosity"] (TStr "all") <> []
   /\ forallb sql_plain_name (normalize_tables ["cpu"; "luminosity"] (TStr "all")) = true
   /\ forallb sql_plain_name (map fst d) = true
   /\ (forall t, In t (normalize_tables ["cpu"; "luminosity"] (TStr "all")) ->
       exists rows, lookup t d = Some rows /\ incl (echoed t) (filter is_unsent rows) /\
         echoes e t (filter is_unsent rows) (echoed t) /\
         forallb in_int64 (map source_id (echoed t)) = true /\
         (List.length (echoed t) < 999)%nat)) /\
  (snd (upload_unsent_data e ["cpu"; "luminosity"] (TStr "all") d) = None /\
   map fst (fst (upload_unsent_data e ["cpu"; "luminosity"] (TStr "all") d)) = map fst d /\
   forall t, lookup t (fst (upload_unsent_data e ["cpu"; "luminosity"] (TStr "all") d)) =
     match lookup t d with
     | Some rows =>
         Some (if existsb (String.eqb t) (normalize_tables ["cpu"; "luminosity"] (TStr "all"))
               then map (fun r => if existsb (fun z => Z.eqb z (source_id r))
                                             (map source_id (echoed t))
                                  then mark_row (clock e t) r else r) rows
               else rows)
     | None => None
     end) /\
  fst (upload_unsent_data e ["cpu"; "luminosity"] (TStr "all") d) =
    [("cpu", [mark_row "T1" (sample_row 1 None); sample_row 2 None; mark_row "T1" (sample_row 3 None);
              sample_row 4 None; mark_row "T1" (sample_row 5 None)]);
     ("luminosity", [mark_row "T1" (sample_row 1 None); sample_row 2 (Some "T0");
                     mark_row "T1" (sample_row 3 None); mark_row "T1" (sample_row 5 None)])].
Proof.
  intros e d echoed.
  assert (Hne : normalize_tables ["cpu"; "luminosity"] (TStr "all") <> []) by discriminate.
  assert (Hp : forallb sql_plain_name (normalize_tables ["cpu"; "luminosity"] (TStr "all")) = true)
    by reflexivity.
  assert (Hn : forallb sql_plain_name (map fst d) = true) by reflexivity.
  assert (Hok : forall t, In t (normalize_tables ["cpu"; "luminosity"] (TStr "all")) ->
       exists rows, lookup t d = Some rows /\ incl (echoed t) (filter is_unsent rows) /\
         echoes e t (filter is_unsent rows) (echoed t) /\
         forallb in_int64 (map source_id (echoed t)) = true /\
         (List.length (echoed t) < 999)%nat).
  { cbn [normalize_tables String.eqb]. intros t [<- | [<- | []]]; eexists;
      (split; [reflexivity|]); (split; [cbn; intros x Hx; cbn in Hx |- *; tauto|]);
      (split; [|split; [reflexivity | apply Nat.ltb_lt; reflexivity]]);
      do 4 eexists; (split; [reflexivity|]); (split; [lia|]); (split; [reflexivity|]);
      (split; [reflexivity|]);
      repeat constructor; eexists; (split; [reflexivity | reflexivity]). }
  split; [split; [exact Hne|]; split; [exact Hp|]; split; [exact Hn | exact Hok]|].
  split; [exact (forward_echoed_subset e _ _ d echoed Hne Hp Hn Hok)|].
  vm_compute. reflexivity.
Defined.

(** With as many echoed ids as the host-parameter limit, the [UPDATE] of
    [mark_sent] raises and none of the table's rows is marked. *)
Lemma large_echo_not_marked :
  upload_unsent_data (echo_env "T1") [] (TList ["cpu"])
      [("cpu", unsent_rows 1 SQLITE_MAX_VARIABLE_NUMBER)]
    = ([("cpu", unsent_rows 1 SQLITE_MAX_VARIABLE_NUMBER)], Some StorageError).
Proof.
  apply echo_all_raises; [apply unsent_rows_unsent | apply unsent_rows_keys |].
  rewrite length_unsent_rows. apply Nat.lt_succ_diag_r.
Qed.




(** C4 (corrected): an upload that fails (transport, status or body) for
    one table leaves the cycle over the other tables as if that table were
    absent; but a storage error is not isolated: a requested table that
    does not exist (the names being plain, so under no spelling) aborts the
    cycle before any upload, and an exception of [mark_sent] for one table
    aborts the tables after it. *)
Theorem forwarding_isolation (e : env) :
  (forall pre post t rows d, upload_fails (http e (request_body t rows)) ->
     forward_all e (pre ++ (t, rows) :: post) d = forward_all e (pre ++ post) d) /\
  (forall names tables t d, In t (normalize_tables names tables) ->
     sql_plain_name t = true -> forallb sql_plain_name (map fst d) = true ->
     lookup t d = None ->
     upload_unsent_data e names tables d = (d, Some StorageError)) /\
  (forall pre t rows post d d' err, forward_all e pre d = (d', None) ->
     sql_plain_name t = true -> forallb sql_plain_name (map fst d') = true ->
     mark_sent t (upload_data e t rows) (clock e t) d' = Exc err ->
     forward_all e (pre ++ (t, rows) :: post) d = (d', Some err)).
Proof.
  split; [|split].
  - intros pre post t rows d Hf. rewrite !forward_all_app.
    destruct (forward_all e pre d) as [d' [err|]]; [reflexivity|].
    cbn [forward_all]. rewrite (failed_upload_nil e t rows Hf). reflexivity.
  - intros names tables t d Hin _ _ Hd. unfold upload_unsent_data, fetch_unsent_data.
    destruct (normalize_tables names tables) as [|t0 ts']; [destruct Hin|].
    rewrite (fetch_tables_missing (t0 :: ts') t d [] Hin Hd). reflexivity.
  - intros pre t rows post d d' err Hpre _ _ Hmark.
    rewrite forward_all_app, Hpre. cbn [forward_all]. rewrite Hmark. reflexivity.
Qed.

(** C4 as stated fails: with the [luminosity] table missing, the cycle over
    [cpu] and [luminosity] raises before [cpu]'s row is forwarded, while
    the cycle over [cpu] alone marks it. *)
Lemma missing_table_blocks_others :
  upload_unsent_data (echo_env "T1") [] (TList ["cpu"; "luminosity"])
      [("cpu", [sample_row 1 None])]
    = ([("cpu", [sample_row 1 None])], Some StorageError) /\
  upload_unsent_data (echo_env "T1") [] (TList ["cpu"]) [("cpu", [sample_row 1 None])]
    = ([("cpu", [mark_row "T1" (sample_row 1 None)])], None).
Proof. split; vm_compute; reflexivity. Qed.

(** C10: a [tables] argument that normalises to no table makes
    [fetch_unsent_data] return [None], and [upload_unsent_data] then raises
    [AttributeError] ([None.items()]). *)
Theorem empty_tables_attribute_error (e : env) (names : list string) (tables : tables_arg)
    (d : db) (Hempty : normalize_tables names tables = []) :
  fetch_unsent_data names tables d = Ok None /\
  upload_unsent_data e names tables d = (d, Some AttributeError).
Proof.
  unfold upload_unsent_data, fetch_unsent_data. rewrite Hempty. split; reflexivity.
Qed.

Lemma empty_tables_attribute_error_witness :
  normalize_tables ["cpu"] TOther = [] /\
  fetch_unsent_data ["cpu"] TOther [("cpu", [sample_row 1 None])] = Ok None /\
  upload_unsent_data (echo_env "T1") ["cpu"] TOther [("cpu", [sample_row 1 None])]
    = ([("cpu", [sample_row 1 None])], Some AttributeError).
Proof.
  split; [reflexivity|].
  exact (empty_tables_attribute_error (echo_env "T1") ["cpu"] TOther
           [("cpu", [sample_row 1 None])] eq_refl).
Defined.

End ForwarderProps.

Module SensorExtras.

Import Sensors SpecLux SensorProps.

(** *** Helpers *)

Lemma option_in_tag_some (t key : string) : exists v, option_in_tag (Some t) key = Ok v.
Proof. eexists. reflexivity. Qed.

Lemma overflow_tag_some (tag : option string) : exists s, overflow_tag tag = Some s.
Proof. unfold overflow_tag. destruct tag as [s|]; [destruct (truthy_str (Some s))|]; eauto. Qed.

Lemma overflow_lux_mask (v i k : Z) : overflow_lux (v + 65536 * k) i = overflow_lux v i.
Proof.
  unfold overflow_lux. change 65535%Z with (Z.ones 16). rewrite !Z.land_ones by lia.
  replace (v + 65536 * k + i)%Z with ((v + i) + k * 2 ^ 16)%Z
    by (change (2 ^ 16)%Z with 65536%Z; lia).
  rewrite Z.mod_add by (change (2 ^ 16)%Z with 65536%Z; lia). reflexivity.
Qed.

Lemma ps_keys (schema : list string) (host : list (string * pyval)) :
  map fst (flat_map (fun k => match assoc k host with
                             | Some v => [(k, v)]
                             | None => []
                             end) schema)
  = filter (fun k => match assoc k host with Some _ => true | None => false end) schema.
Proof.
  induction schema as [|k ks IH]; [reflexivity|].
  cbn [flat_map filter]. destruct (assoc k host); cbn [List.app map]; rewrite IH; reflexivity.
Qed.

Lemma ps_values (schema : list string) (host : list (string * pyval)) (k : string) (v : pyval) :
  In (k, v) (flat_map (fun k => match assoc k host with
                                | Some v => [(k, v)]
                                | None => []
                                end) schema) ->
  In k schema /\ assoc k host = Some v.
Proof.
  rewrite in_flat_map. intros (k' & Hk' & Hin).
  destruct (assoc k' host) as [w|] eqn:E; [|destruct Hin].
  destruct Hin as [Heq|[]]. injection Heq as -> ->. split; assumption.
Qed.

Lemma collect_shape (s : sensor) (now : string) (tag : option string) (c : collected) :
  collect s now tag = Ok (Some c) -> c_table c = s_name s /\ c_at c = now /\ c_data c <> [].
Proof.
  unfold collect. destruct (sensor_data s tag) as [[[|kv d]|]|e]; cbn [bind];
    try discriminate.
  intros H. injection H as <-. cbn. split; [reflexivity|]. split; [reflexivity|].
  discriminate.
Qed.

(** *** Properties *)

(** Every reading [Tsl2591Sensor.sensor_data] returns carries the two
    channel counts as read, both non-zero, and a tag that is not [None]:
    the configured tag when the lux read succeeded, the tag with the
    overflow marker otherwise. *)
Theorem tsl_reading_shape (rd : tsl_reads) (tag : option string) (d : light_data) :
  tsl_sensor_data rd tag = Ok (Some d) ->
  rd_visible rd = Some (ld_visible d) /\ rd_infrared rd = Some (ld_infrared d) /\
  ld_visible d <> 0%Z /\ ld_infrared d <> 0%Z /\ ld_tag d <> None /\
  ld_tag d = match rd_lux rd with Some _ => tag | None => overflow_tag tag end.
Proof.
  unfold tsl_sensor_data.
  destruct (rd_visible rd) as [v|]; [|discriminate].
  destruct (rd_infrared rd) as [i|]; [|discriminate].
  unfold truthy_int.
  destruct (Z.eqb v 0) eqn:Ev; [discriminate|].
  destruct (Z.eqb i 0) eqn:Ei; [discriminate|].
  apply Z.eqb_neq in Ev. apply Z.eqb_neq in Ei. cbn [negb andb].
  destruct (rd_lux rd) as [l|].
  - cbn [bind]. destruct tag as [t|]; [|discriminate].
    destruct (option_in_tag_some t "nd") as [nd Hnd]. rewrite Hnd. cbn [bind].
    intros H. injection H as <-. cbn. repeat split; try assumption; discriminate.
  - destruct (overflow_lux v i) as [x|err]; cbn [bind]; [|discriminate].
    destruct (overflow_tag_some tag) as [t Ht]. rewrite Ht.
    destruct (option_in_tag_some t "nd") as [nd Hnd]. rewrite Hnd. cbn [bind].
    intros H. injection H as <-. cbn. repeat split; try assumption; discriminate.
Qed.

Lemma tsl_reading_shape_witness :
  tsl_sensor_data {| rd_visible := Some 5%Z; rd_infrared := Some 3%Z; rd_lux := Some 7.5%float |}
    (Some "field")
  = Ok (Some {| ld_tag := Some "field"; ld_visible := 5; ld_infrared := 3; ld_lux := 7.5 |}) /\
  rd_visible {| rd_visible := Some 5%Z; rd_infrared := Some 3%Z; rd_lux := Some 7.5%float |}
    = Some 5%Z /\
  rd_infrared {| rd_visible := Some 5%Z; rd_infrared := Some 3%Z; rd_lux := Some 7.5%float |}
    = Some 3%Z /\
  5%Z <> 0%Z /\ 3%Z <> 0%Z /\ Some "field" <> None /\
  Some "field" = match rd_lux {| rd_visible := Some 5%Z; rd_infrared := Some 3%Z;
                                 rd_lux := Some 7.5%float |} with
                 | Some _ => Some "field"
                 | None => overflow_tag (Some "field")
                 end.
Proof.
  assert (H : tsl_sensor_data {| rd_visible := Some 5%Z; rd_infrared := Some 3%Z;
                                 rd_lux := Some 7.5%float |} (Some "field")
    = Ok (Some {| ld_tag := Some "field"; ld_visible := 5; ld_infrared := 3; ld_lux := 7.5 |}))
    by reflexivity.
  split; [exact H|]. exact (tsl_reading_shape _ _ _ H).
Defined.

(** On the overflow path the lux value depends on the visible count only
    modulo 65536 (the [& 0xFFFF] mask): two samples whose visible counts
    differ by a multiple of 65536 give the same reading up to that count. *)
Theorem tsl_overflow_visible_mask (v i k : Z) (tag : option string)
    (Hv : v <> 0%Z) (Hvk : (v + 65536 * k)%Z <> 0%Z) :
  tsl_sensor_data {| rd_visible := Some (v + 65536 * k)%Z; rd_infrared := Some i; rd_lux := None |} tag
  = match tsl_sensor_data {| rd_visible := Some v; rd_infrared := Some i; rd_lux := None |} tag with
    | Ok (Some d) => Ok (Some {| ld_tag := ld_tag d; ld_visible := (v + 65536 * k)%Z;
                                 ld_infrared := ld_infrared d; ld_lux := ld_lux d |})
    | r => r
    end.
Proof.
  unfold tsl_sensor_data. cbn [rd_visible rd_infrared rd_lux]. unfold truthy_int.
  apply Z.eqb_neq in Hv. apply Z.eqb_neq in Hvk. rewrite Hv, Hvk. cbn [negb andb].
  destruct (negb (Z.eqb i 0)); [|reflexivity].
  rewrite overflow_lux_mask.
  destruct (overflow_lux v i) as [x|err]; cbn [bind]; [|reflexivity].
  destruct (option_in_tag (overflow_tag tag) "nd") as [nd|err]; reflexivity.
Qed.

Lemma tsl_overflow_visible_mask_witness :
  (554840886%Z <> 0%Z /\ (554840886 + 65536 * 1)%Z <> 0%Z) /\
  tsl_sensor_data {| rd_visible := Some (554840886 + 65536 * 1)%Z; rd_infrared := Some 8478%Z;
                     rd_lux := None |} None
  = match tsl_sensor_data {| rd_visible := Some 554840886%Z; rd_infrared := Some 8478%Z;
                             rd_lux := None |} None with
    | Ok (Some d) => Ok (Some {| ld_tag := ld_tag d; ld_visible := (554840886 + 65536 * 1)%Z;
                                 ld_infrared := ld_infrared d; ld_lux := ld_lux d |})
    | r => r
    end.
Proof.
  split; [split; lia|].
  exact (tsl_overflow_visible_mask 554840886 8478 1 None ltac:(lia) ltac:(lia)).
Defined.

(** The host-counter sensors always produce a record: its data is the tag
    followed by the schema columns the host reports, in schema order, each
    with the host's value; host keys outside the schema are dropped. *)
Theorem ps_collect_record (s : sensor) (host : list (string * pyval)) (schema : list string)
    (dt : string) (tag : option string)
    (Hk : (s_kind s = PsCpuSensor host /\ schema = cpu_columns)
          \/ (s_kind s = PsVmemorySensor host /\ schema = vmemory_columns)) :
  exists data,
    collect s dt tag = Ok (Some {| c_table := s_name s; c_at := dt; c_data := data |}) /\
    map fst data = "tag" :: filter (fun k => match assoc k host with
                                             | Some _ => true
                                             | None => false
                                             end) schema /\
    forall k v, In (k, v) data ->
      (k = "tag" /\ v = pyval_of_tag tag) \/ (In k schema /\ assoc k host = Some v).
Proof.
  exists (ps_sensor_data schema host tag).
  split; [|split].
  - unfold collect, sensor_data.
    destruct Hk as [[-> ->] | [-> ->]]; reflexivity.
  - unfold ps_sensor_data. cbn [map fst]. rewrite ps_keys. reflexivity.
  - unfold ps_sensor_data. intros k v [Heq | Hin].
    + injection Heq as <- <-. left. split; reflexivity.
    + right. apply ps_values, Hin.
Qed.

Lemma ps_collect_record_witness :
  ((s_kind {| s_name := "cpu"; s_enabled := true;
              s_kind := PsCpuSensor [("user", PFloat 1.5); ("ctx_switches", PInt 7)] |}
    = PsCpuSensor [("user", PFloat 1.5); ("ctx_switches", PInt 7)] /\ cpu_columns = cpu_columns)
   \/ (s_kind {| s_name := "cpu"; s_enabled := true;
                 s_kind := PsCpuSensor [("user", PFloat 1.5); ("ctx_switches", PInt 7)] |}
       = PsVmemorySensor [("user", PFloat 1.5); ("ctx_switches", PInt 7)]
       /\ cpu_columns = vmemory_columns)) /\
  exists data,
    collect {| s_name := "cpu"; s_enabled := true;
               s_kind := PsCpuSensor [("user", PFloat 1.5); ("ctx_switches", PInt 7)] |} "T0" None
      = Ok (Some {| c_table := "cpu"; c_at := "T0"; c_data := data |}) /\
    map fst data = "tag" :: filter (fun k => match assoc k [("user", PFloat 1.5); ("ctx_switches", PInt 7)] with
                                             | Some _ => true
                                             | None => false
                                             end) cpu_columns /\
    forall k v, In (k, v) data ->
      (k = "tag" /\ v = pyval_of_tag None)
      \/ (In k cpu_columns /\ assoc k [("user", PFloat 1.5); ("ctx_switches", PInt 7)] = Some v).
Proof.
  assert (Hk : (s_kind {| s_name := "cpu"; s_enabled := true;
              s_kind := PsCpuSensor [("user", PFloat 1.5); ("ctx_switches", PInt 7)] |}
    = PsCpuSensor [("user", PFloat 1.5); ("ctx_switches", PInt 7)] /\ cpu_columns = cpu_columns)
   \/ (s_kind {| s_name := "cpu"; s_enabled := true;
                 s_kind := PsCpuSensor [("user", PFloat 1.5); ("ctx_switches", PInt 7)] |}
       = PsVmemorySensor [("user", PFloat 1.5); ("ctx_switches", PInt 7)]
       /\ cpu_columns = vmemory_columns)) by (left; split; reflexivity).
  split; [exact Hk|].
  exact (ps_collect_record _ _ cpu_columns "T0" None Hk).
Defined.

(** Every record [Logger.collect_data] returns is stamped with the pass's
    time, names the table of an enabled sensor of the list, and has
    non-empty data; there is at most one record per enabled sensor. *)
Theorem collect_data_records (l : list sensor) (now : string) (tag : option string)
    (dt : string) (out : list collected) :
  collect_data l now tag = Ok (dt, out) ->
  dt = now /\
  (List.length out <= List.length (filter s_enabled l))%nat /\
  Forall (fun c => c_at c = now /\ c_data c <> [] /\
                   exists s, In s l /\ s_enabled s = true /\ c_table c = s_name s) out.
Proof.
  unfold collect_data. destruct (collect_all l now tag) as [r|e] eqn:E; cbn [bind];
    [|discriminate].
  intros H. injection H as <- <-. split; [reflexivity|].
  revert r E. induction l as [|s l IH]; intros r E.
  - cbn in E. injection E as <-. split; [apply le_n | constructor].
  - cbn [collect_all] in E. cbn [filter].
    destruct (s_enabled s) eqn:Es.
    + destruct (collect s now tag) as [[c|]|e] eqn:Ec; cbn [bind] in E; [| |discriminate].
      * destruct (collect_all l now tag) as [rest|e] eqn:Er; cbn [bind] in E; [|discriminate].
        injection E as <-. destruct (IH rest eq_refl) as [Hlen Hall].
        destruct (collect_shape s now tag c Ec) as (Ht & Ha & Hd).
        split; [cbn; lia|]. constructor.
        -- split; [exact Ha|]. split; [exact Hd|]. exists s. split; [left; reflexivity|].
           split; assumption.
        -- eapply Forall_impl; [|exact Hall]. intros c' (Ha' & Hd' & s' & Hin & Hen & Hn).
           split; [exact Ha'|]. split; [exact Hd'|]. exists s'. split; [right; exact Hin|].
           split; assumption.
      * destruct (collect_all l now tag) as [rest|e] eqn:Er; cbn [bind] in E; [|discriminate].
        injection E as <-. destruct (IH rest eq_refl) as [Hlen Hall].
        split; [cbn; lia|].
        eapply Forall_impl; [|exact Hall]. intros c' (Ha' & Hd' & s' & Hin & Hen & Hn).
        split; [exact Ha'|]. split; [exact Hd'|]. exists s'. split; [right; exact Hin|].
        split; assumption.
    + cbn [bind] in E.
      destruct (collect_all l now tag) as [rest|e] eqn:Er; cbn [bind] in E; [|discriminate].
      injection E as <-. destruct (IH rest eq_refl) as [Hlen Hall].
      split; [exact Hlen|].
      eapply Forall_impl; [|exact Hall]. intros c' (Ha' & Hd' & s' & Hin & Hen & Hn).
      split; [exact Ha'|]. split; [exact Hd'|]. exists s'. split; [right; exact Hin|].
      split; assumption.
Qed.

Lemma collect_data_records_witness :
  collect_data
    [{| s_name := "luminosity"; s_enabled := false; s_kind := Tsl2591Sensor mock_reads |};
     {| s_name := "cpu"; s_enabled := true; s_kind := PsCpuSensor [("user", PFloat 1.5)] |}]
    "T0" None
  = Ok ("T0", [{| c_table := "cpu"; c_at := "T0";
                  c_data := [("tag", PNone); ("user", PFloat 1.5)] |}]) /\
  "T0" = "T0" /\
  (List.length [{| c_table := "cpu"; c_at := "T0";
                   c_data := [("tag", PNone); ("user", PFloat 1.5)] |}]
   <= List.length (filter s_enabled
        [{| s_name := "luminosity"; s_enabled := false; s_kind := Tsl2591Sensor mock_reads |};
         {| s_name := "cpu"; s_enabled := true; s_kind := PsCpuSensor [("user", PFloat 1.5)] |}]))%nat
  /\
  Forall (fun c => c_at c = "T0" /\ c_data c <> [] /\
                   exists s, In s
        [{| s_name := "luminosity"; s_enabled := false; s_kind := Tsl2591Sensor mock_reads |};
         {| s_name := "cpu"; s_enabled := true; s_kind := PsCpuSensor [("user", PFloat 1.5)] |}]
                   /\ s_enabled s = true /\ c_table c = s_name s)
    [{| c_table := "cpu"; c_at := "T0"; c_data := [("tag", PNone); ("user", PFloat 1.5)] |}].
Proof.
  assert (H : collect_data
    [{| s_name := "luminosity"; s_enabled := false; s_kind := Tsl2591Sensor mock_reads |};
     {| s_name := "cpu"; s_enabled := true; s_kind := PsCpuSensor [("user", PFloat 1.5)] |}]
    "T0" None
  = Ok ("T0", [{| c_table := "cpu"; c_at := "T0";
                  c_data := [("tag", PNone); ("user", PFloat 1.5)] |}])) by reflexivity.
  split; [exact H|]. exact (collect_data_records _ _ _ _ _ H).
Defined.

End SensorExtras.

Module ForwarderExtras.

Import Sensors Forwarder FwdSpec ForwarderProps.

(** *** [fetch_unsent_data] *)

Lemma fetch_tables_ok (ts : list string) (d : db) (acc : list (string * list row)) :
  Forall (fun t => lookup t d <> None) ts ->
  exists a, fetch_tables ts d acc = Ok a /\
    (NoDup (map fst acc) -> NoDup (map fst a)) /\
    forall t, lookup t a = if existsb (String.eqb t) ts
                           then option_map (filter is_unsent) (lookup t d)
                           else lookup t acc.
Proof.
  intros H. revert acc. induction H as [|u ts Hu Hts IH]; intros acc.
  - exists acc. split; [reflexivity|]. split; [intros H; exact H|]. intros t. reflexivity.
  - cbn [fetch_tables]. unfold select_unsent.
    destruct (lookup u d) as [rows|] eqn:Eu; [|contradiction Hu; reflexivity]. cbn [bind].
    destruct (IH (dict_set u (filter is_unsent rows) acc)) as (a & Ha & Hnd & Hl).
    exists a. split; [exact Ha|]. split.
    + intros Hacc. apply Hnd, nodup_dict_set, Hacc.
    + intros t. rewrite Hl, lookup_dict_set. cbn [existsb].
      destruct (String.eqb t u) eqn:E; cbn [orb].
      * apply String.eqb_eq in E. subst u. rewrite Eu.
        destruct (existsb (String.eqb t) ts); reflexivity.
      * reflexivity.
Qed.

Lemma fetch_tables_keys (ts : list string) (d : db) (acc a : list (string * list row)) :
  fetch_tables ts d acc = Ok a -> forall k, In k (map fst a) -> In k (map fst acc) \/ In k ts.
Proof.
  revert acc. induction ts as [|u ts IH]; intros acc.
  - cbn. intros H. injection H as <-. intros k Hk. left. exact Hk.
  - cbn [fetch_tables]. unfold select_unsent.
    destruct (lookup u d) as [rows|]; [|discriminate]. cbn [bind].
    intros H k Hk. destruct (IH _ H k Hk) as [Hin | Hin].
    + apply in_keys_dict_set in Hin as [-> | Hin]; [right; left; reflexivity | left; exact Hin].
    + right; right; exact Hin.
Qed.

(** *** Reading the acknowledgement *)

Lemma collect_ids_sound (l : list json) (ids : list json) (v : json) :
  collect_ids l = Ok ids -> In v ids ->
  exists kvs, In (JObj kvs) l /\ obj_get kvs "source_id" = Some v.
Proof.
  revert ids. induction l as [|x l IH]; intros ids.
  - cbn. intros H. injection H as <-. intros [].
  - cbn [collect_ids].
    destruct (py_contains "source_id" x) as [c|err]; cbn [bind]; [|discriminate].
    destruct c.
    + destruct (py_getitem x "source_id") as [w|err] eqn:Ew; cbn [bind]; [|discriminate].
      destruct (collect_ids l) as [rest|err] eqn:Er; cbn [bind]; [|discriminate].
      intros H. injection H as <-. intros [<- | Hin].
      * destruct x as [| | | | |l'|kvs]; try discriminate.
        cbn in Ew. destruct (obj_get kvs "source_id") eqn:Eo; [|discriminate].
        injection Ew as ->. exists kvs. split; [left; reflexivity | exact Eo].
      * destruct (IH rest eq_refl Hin) as (kvs & Hk & Ho).
        exists kvs. split; [right; exact Hk | exact Ho].
    + intros H Hin. destruct (IH ids H Hin) as (kvs & Hk & Ho).
      exists kvs. split; [right; exact Hk | exact Ho].
Qed.

Lemma py_iter_dict_items (x : json) (l : list json) (kvs : list (string * json)) :
  py_iter x = Ok l -> In (JObj kvs) l -> x = JArr l.
Proof.
  destruct x as [| | | | s |l'|kvs']; cbn; try discriminate.
  - intros H. injection H as <-. rewrite in_map_iff. intros (c & Hc & _). discriminate.
  - intros H. injection H as <-. reflexivity.
  - intros H. injection H as <-. rewrite in_map_iff. intros (k & Hk & _). discriminate.
Qed.

Lemma collect_ids_scalar (l : list json) (x : json) :
  In x l -> match x with JNull | JBool _ | JInt _ | JFloat _ => True | _ => False end ->
  exists err, collect_ids l = Exc err.
Proof.
  induction l as [|y l IH]; [intros []|]. intros [-> | Hin] Hx.
  - cbn [collect_ids]. destruct x; try contradiction Hx; eexists; reflexivity.
  - cbn [collect_ids]. destruct (py_contains "source_id" y) as [c|err]; cbn [bind];
      [|eexists; reflexivity].
    destruct (IH Hin Hx) as [err Herr]. destruct c.
    + destruct (py_getitem y "source_id"); cbn [bind]; [|eexists; reflexivity].
      rewrite Herr. eexists; reflexivity.
    + exists err. exact Herr.
Qed.

(** *** Marking *)

Lemma marked_trans (rs rs' rs'' : list row) :
  Forall2 (fun r r' => r' = r \/ exists now, r' = mark_row now r) rs rs' ->
  Forall2 (fun r r' => r' = r \/ exists now, r' = mark_row now r) rs' rs'' ->
  Forall2 (fun r r' => r' = r \/ exists now, r' = mark_row now r) rs rs''.
Proof.
  intros H. revert rs''. induction H as [|r r' rs rs' Hr Hrs IH]; intros rs'' H'.
  - inversion H'. constructor.
  - inversion H' as [|r1 r'' rs1 rs2 Hr' Hrs' E1 E2]. subst. constructor; [|apply IH, Hrs'].
    destruct Hr' as [-> | (n2 & ->)]; [exact Hr|].
    right. exists n2. destruct Hr as [-> | (n1 & ->)]; reflexivity.
Qed.

Lemma marked_refl (rs : list row) :
  Forall2 (fun r r' => r' = r \/ exists now, r' = mark_row now r) rs rs.
Proof. induction rs; constructor; [left; reflexivity | assumption]. Qed.

Lemma mark_sent_frame (t now : string) (ids : list json) (d : db) (p : pyval) (d' : db) :
  mark_sent t ids now d = Ok (p, d') ->
  map fst d' = map fst d /\
  (forall t', t' <> t -> lookup t' d' = lookup t' d) /\
  (lookup t d = None -> lookup t d' = None) /\
  (forall rows, lookup t d = Some rows -> exists rows', lookup t d' = Some rows' /\
     Forall2 (fun r r' => r' = r \/ r' = mark_row now r) rows rows').
Proof.
  unfold mark_sent. destruct ids as [|j ids].
  - intros H. injection H as _ <-. split; [reflexivity|]. split; [reflexivity|].
    split; [intros H; exact H|]. intros rows Hr. exists rows. split; [exact Hr|].
    clear. induction rows; constructor; [left; reflexivity | assumption].
  - unfold sql_update_sent.
    destruct (Nat.ltb SQLITE_MAX_VARIABLE_NUMBER (S (List.length (j :: ids)))); [discriminate|].
    destruct (bind_params (j :: ids)) as [ps|err]; cbn [bind]; [|discriminate].
    destruct (lookup t d) as [rows|] eqn:Et; [|discriminate]. cbn [bind].
    intros H. injection H as _ <-. split; [apply keys_set_table|]. split.
    + intros t' Hne. apply lookup_set_table_other, Hne.
    + split; [discriminate|]. intros rows0 Hr. injection Hr as <-.
      rewrite lookup_set_table, Et. eexists. split; [reflexivity|].
      clear Et. induction rows as [|r rows IH]; constructor; [|exact IH].
      destruct (matches ps r); [right | left]; reflexivity.
Qed.

Lemma forward_all_frame (e : env) (a : list (string * list row)) (d : db) :
  map fst (fst (forward_all e a d)) = map fst d /\
  forall t,
    ((lookup t d = None /\ lookup t (fst (forward_all e a d)) = None) \/
     exists rs rs', lookup t d = Some rs /\ lookup t (fst (forward_all e a d)) = Some rs' /\
       Forall2 (fun r r' => r' = r \/ exists now, r' = mark_row now r) rs rs') /\
    (~ In t (map fst a) -> lookup t (fst (forward_all e a d)) = lookup t d).
Proof.
  revert d. induction a as [|[u rows] a IH]; intros d; cbn [forward_all].
  - cbn [fst]. split; [reflexivity|]. intros t. split; [|reflexivity].
    destruct (lookup t d) as [rs|]; [right; exists rs, rs; split; [reflexivity|]; split;
      [reflexivity | apply marked_refl] | left; split; reflexivity].
  - destruct (mark_sent u (upload_data e u rows) (clock e u) d) as [[p d1]|err] eqn:Em.
    + destruct (mark_sent_frame _ _ _ _ _ _ Em) as (Hk1 & Ho1 & Hn1 & Hs1).
      destruct (IH d1) as [Hk2 H2]. split; [rewrite Hk2; exact Hk1|].
      intros t. destruct (H2 t) as [Hr2 Hf2]. split.
      * assert (Hr1 : (lookup t d = None /\ lookup t d1 = None) \/
                      exists rs rs', lookup t d = Some rs /\ lookup t d1 = Some rs' /\
                        Forall2 (fun r r' => r' = r \/ exists now, r' = mark_row now r) rs rs').
        { destruct (String.eqb t u) eqn:E.
          - apply String.eqb_eq in E. subst u.
            destruct (lookup t d) as [rs|] eqn:Et.
            + destruct (Hs1 rs eq_refl) as (rs' & Hrs' & HF). right. exists rs, rs'.
              split; [reflexivity|]. split; [exact Hrs'|].
              eapply Forall2_impl; [|exact HF]. intros r r' [-> | ->]; [left | right; eexists];
                reflexivity.
            + left. split; [reflexivity | apply Hn1; reflexivity].
          - assert (Hne : t <> u) by (intros ->; rewrite String.eqb_refl in E; discriminate).
            rewrite (Ho1 t Hne). destruct (lookup t d) as [rs|];
              [right; exists rs, rs; split; [reflexivity|]; split; [reflexivity | apply marked_refl]
              | left; split; reflexivity]. }
        destruct Hr1 as [[N1 N1'] | (rs & rs' & R1 & R1' & F1)];
          destruct Hr2 as [[N2 N2'] | (ss & ss' & R2 & R2' & F2)]; try congruence.
        -- left. split; assumption.
        -- right. rewrite R1' in R2. injection R2 as <-. exists rs, ss'.
           split; [exact R1|]. split; [exact R2'|]. eapply marked_trans; eassumption.
      * intros Hnin. cbn [map fst In] in Hnin. rewrite Hf2 by (intros H; apply Hnin; right; exact H).
        apply Ho1. intros ->. apply Hnin. left. reflexivity.
    + cbn [fst]. split; [reflexivity|]. intros t. split; [|reflexivity].
      destruct (lookup t d) as [rs|]; [right; exists rs, rs; split; [reflexivity|]; split;
        [reflexivity | apply marked_refl] | left; split; reflexivity].
Qed.

Lemma sensors_dict_snoc (l : list sensor) (s : sensor) :
  sensors_dict (l ++ [s])%list = dict_set (s_name s) s (sensors_dict l).
Proof. unfold sensors_dict. rewrite fold_left_app. reflexivity. Qed.

(** *** Properties *)

(** [Logger.__init__] keys its sensors by name: each name appears once, a
    name is present exactly when some sensor has it, and the sensor kept
    for a name is the last one given with that name. *)
Theorem sensors_dict_last (sensors : list sensor) :
  NoDup (map fst (sensors_dict sensors)) /\
  (forall n, lookup n (sensors_dict sensors) = None <-> Forall (fun s => s_name s <> n) sensors) /\
  (forall n s, lookup n (sensors_dict sensors) = Some s ->
     s_name s = n /\ exists pre post, sensors = (pre ++ s :: post)%list
                                      /\ Forall (fun s' => s_name s' <> n) post).
Proof.
  induction sensors as [|s l IH] using rev_ind.
  - split; [constructor|]. split; [intros n; split; [intros _; constructor | reflexivity]|].
    intros n s H. discriminate.
  - destruct IH as (Hnd & Hnone & Hsome). rewrite sensors_dict_snoc.
    split; [apply nodup_dict_set, Hnd|]. split.
    + intros n. rewrite lookup_dict_set, Forall_app.
      destruct (String.eqb n (s_name s)) eqn:E.
      * apply String.eqb_eq in E. split; [discriminate|].
        intros [_ Hs]. inversion Hs as [|x y Hx]. congruence.
      * rewrite Hnone. apply String.eqb_neq in E. split.
        -- intros H. split; [exact H|]. constructor; [congruence | constructor].
        -- intros [H _]. exact H.
    + intros n s' H. rewrite lookup_dict_set in H.
      destruct (String.eqb n (s_name s)) eqn:E.
      * injection H as <-. apply String.eqb_eq in E. split; [congruence|].
        exists l, []. split; [reflexivity | constructor].
      * apply String.eqb_neq in E. destruct (Hsome n s' H) as (Hn & pre & post & Hl & Hp).
        split; [exact Hn|]. exists pre, (post ++ [s])%list. split.
        -- rewrite Hl, <- app_assoc. reflexivity.
        -- apply Forall_app. split; [exact Hp | constructor; [congruence | constructor]].
Qed.

(** When every requested table exists, [Logger.fetch_unsent_data] returns
    a dictionary with one entry per requested table (duplicates in the
    request collapse), holding exactly that table's rows whose [sent] is
    NULL, in the table's order. *)
Theorem fetch_unsent_data_tables (names : list string) (tables : tables_arg) (d : db)
    (Hne : normalize_tables names tables <> [])
    (Hall : forall t, In t (normalize_tables names tables) -> lookup t d <> None) :
  exists a, fetch_unsent_data names tables d = Ok (Some a) /\ NoDup (map fst a) /\
    forall t, lookup t a = if existsb (String.eqb t) (normalize_tables names tables)
                           then option_map (filter is_unsent) (lookup t d) else None.
Proof.
  unfold fetch_unsent_data.
  destruct (fetch_tables_ok (normalize_tables names tables) d [] (proj2 (Forall_forall _ _) Hall))
    as (a & Ha & Hnd & Hl).
  exists a. destruct (normalize_tables names tables) as [|t0 ts]; [contradiction Hne; reflexivity|].
  rewrite Ha. split; [reflexivity|]. split; [apply Hnd; constructor|].
  intros t. rewrite Hl. destruct (existsb (String.eqb t) (t0 :: ts)); reflexivity.
Qed.

Lemma fetch_unsent_data_tables_witness :
  (TList ["luminosity"; "cpu"; "luminosity"] <> TOther
   /\ normalize_tables [] (TList ["luminosity"; "cpu"; "luminosity"]) <> []
   /\ (forall t, In t (normalize_tables [] (TList ["luminosity"; "cpu"; "luminosity"])) ->
        lookup t [("cpu", [sample_row 1 None]); ("luminosity", [sample_row 2 (Some "T1")])]
        <> None)) /\
  exists a, fetch_unsent_data [] (TList ["luminosity"; "cpu"; "luminosity"])
              [("cpu", [sample_row 1 None]); ("luminosity", [sample_row 2 (Some "T1")])]
            = Ok (Some a) /\ NoDup (map fst a) /\
    forall t, lookup t a = if existsb (String.eqb t) (normalize_tables [] (TList ["luminosity"; "cpu"; "luminosity"]))
                           then option_map (filter is_unsent)
                                  (lookup t [("cpu", [sample_row 1 None]);
                                             ("luminosity", [sample_row 2 (Some "T1")])])
                           else None.
Proof.
  assert (Hne : normalize_tables [] (TList ["luminosity"; "cpu"; "luminosity"]) <> [])
    by discriminate.
  assert (Hall : forall t, In t (normalize_tables [] (TList ["luminosity"; "cpu"; "luminosity"])) ->
        lookup t [("cpu", [sample_row 1 None]); ("luminosity", [sample_row 2 (Some "T1")])]
        <> None).
  { cbn [normalize_tables In]. intros t [<- | [<- | [<- | []]]]; discriminate. }
  split; [split; [discriminate|]; split; [exact Hne | exact Hall]|].
  exact (fetch_unsent_data_tables _ _ _ Hne Hall).
Defined.

(** [Logger.upload_data] returns an id only from a 2xx response whose body
    decodes to an object with [record.rows] a list: each id is the
    [source_id] value of a dict entry of that list.  A dict or string in
    [rows] yields no ids. *)
Theorem upload_data_ids_from_response (e : env) (t : string) (rows : list row) (v : json)
    (Hv : In v (upload_data e t rows)) :
  rows <> [] /\
  exists status b recd l kvs,
    http e (request_body t rows) = HResponse status (Some b) /\ (200 <= status < 300)%Z /\
    py_getitem b "record" = Ok recd /\ py_getitem recd "rows" = Ok (JArr l) /\
    In (JObj kvs) l /\ obj_get kvs "source_id" = Some v.
Proof.
  revert Hv. unfold upload_data. destruct rows as [|r rs]; [intros []|].
  intros Hv. split; [discriminate|].
  destruct (http e (request_body t (r :: rs))) as [|status [b|]]; [destruct Hv| |].
  - destruct ((status <? 200)%Z || (300 <=? status)%Z) eqn:Es; [destruct Hv|].
    apply orb_false_iff in Es as [E1 E2]. apply Z.ltb_ge in E1. apply Z.leb_gt in E2.
    destruct (extract_ids b) as [ids|err] eqn:Ex; [|destruct Hv].
    unfold extract_ids in Ex.
    destruct (py_getitem b "record") as [recd|] eqn:Er; cbn [bind] in Ex; [|discriminate].
    destruct (py_getitem recd "rows") as [rv|] eqn:Erv; cbn [bind] in Ex; [|discriminate].
    destruct (py_iter rv) as [l|] eqn:Ei; cbn [bind] in Ex; [|discriminate].
    destruct (collect_ids_sound l ids v Ex Hv) as (kvs & Hk & Ho).
    pose proof (py_iter_dict_items rv l kvs Ei Hk) as ->.
    exists status, b, recd, l, kvs. repeat split; try assumption; lia.
  - destruct (_ || _); destruct Hv.
Qed.

Lemma upload_data_ids_from_response_witness :
  In (JInt 1) (upload_data (echo_env "T9") "cpu" [sample_row 1 None]) /\
  [sample_row 1 None] <> [] /\
  exists status b recd l kvs,
    http (echo_env "T9") (request_body "cpu" [sample_row 1 None]) = HResponse status (Some b)
    /\ (200 <= status < 300)%Z /\
    py_getitem b "record" = Ok recd /\ py_getitem recd "rows" = Ok (JArr l) /\
    In (JObj kvs) l /\ obj_get kvs "source_id" = Some (JInt 1).
Proof.
  assert (Hv : In (JInt 1) (upload_data (echo_env "T9") "cpu" [sample_row 1 None]))
    by (left; reflexivity).
  split; [exact Hv|]. exact (upload_data_ids_from_response _ _ _ _ Hv).
Defined.

(** One entry of [record.rows] that is [null], a boolean or a number makes
    [Logger.upload_data] return no ids at all, even when the other entries
    carry their [source_id]: the comprehension raises and the [except]
    discards the whole answer. *)
Theorem upload_data_scalar_entry (e : env) (t : string) (rows : list row) (status : Z)
    (b recd : json) (l : list json) (x : json)
    (Hhttp : http e (request_body t rows) = HResponse status (Some b))
    (Hstatus : (200 <= status < 300)%Z)
    (Hrec : py_getitem b "record" = Ok recd) (Hrows : py_getitem recd "rows" = Ok (JArr l))
    (Hx : In x l) (Hscalar : match x with JNull | JBool _ | JInt _ | JFloat _ => True | _ => False end) :
  upload_data e t rows = [].
Proof.
  unfold upload_data. destruct rows as [|r rs]; [reflexivity|]. rewrite Hhttp.
  destruct ((status <? 200)%Z || (300 <=? status)%Z); [reflexivity|].
  unfold extract_ids. rewrite Hrec. cbn [bind]. rewrite Hrows. cbn [bind py_iter].
  destruct (collect_ids_scalar l x Hx Hscalar) as [err ->]. reflexivity.
Qed.

Lemma upload_data_scalar_entry_witness :
  http {| http := fun _ => HResponse 200 (Some (JObj [("record", JObj [("rows",
                    JArr [row_to_json (sample_row 1 None); JNull])])]));
          clock := fun _ => "T9" |}
       (request_body "cpu" [sample_row 1 None; sample_row 2 None])
    = HResponse 200 (Some (JObj [("record", JObj [("rows",
                    JArr [row_to_json (sample_row 1 None); JNull])])])) /\
  (200 <= 200 < 300)%Z /\
  In JNull [row_to_json (sample_row 1 None); JNull] /\
  upload_data {| http := fun _ => HResponse 200 (Some (JObj [("record", JObj [("rows",
                    JArr [row_to_json (sample_row 1 None); JNull])])]));
                 clock := fun _ => "T9" |}
    "cpu" [sample_row 1 None; sample_row 2 None] = [].
Proof.
  split; [reflexivity|]. split; [lia|]. split; [right; left; reflexivity|].
  exact (upload_data_scalar_entry
           {| http := fun _ => HResponse 200 (Some (JObj [("record", JObj [("rows",
                    JArr [row_to_json (sample_row 1 None); JNull])])]));
              clock := fun _ => "T9" |}
           "cpu" [sample_row 1 None; sample_row 2 None]
           200 _ (JObj [("rows", JArr [row_to_json (sample_row 1 None); JNull])])
           [row_to_json (sample_row 1 None); JNull] JNull eq_refl ltac:(lia) eq_refl eq_refl
           (or_intror (or_introl eq_refl)) I).
Defined.

(** A successful [Logger.mark_sent] touches only the table it is given: the
    set of tables is unchanged, every other table is unchanged, and each
    row of the table either stays as it was or gets [sent] set to the
    current time, keeping its id, tag, time and values. *)
Theorem mark_sent_only_marks (t now : string) (ids : list json) (d : db) (p : pyval) (d' : db)
    (H : mark_sent t ids now d = Ok (p, d')) :
  map fst d' = map fst d /\
  (forall t', t' <> t -> lookup t' d' = lookup t' d) /\
  (lookup t d = None -> lookup t d' = None) /\
  (forall rows, lookup t d = Some rows -> exists rows', lookup t d' = Some rows' /\
     Forall2 (fun r r' => r' = r \/ r' = mark_row now r) rows rows').
Proof. exact (mark_sent_frame t now ids d p d' H). Qed.

Lemma mark_sent_only_marks_witness :
  mark_sent "cpu" [JInt 1] "T9" [("cpu", [sample_row 1 None; sample_row 2 None])]
    = Ok (PNone, [("cpu", [mark_row "T9" (sample_row 1 None); sample_row 2 None])]) /\
  map fst [("cpu", [mark_row "T9" (sample_row 1 None); sample_row 2 None])]
    = map fst [("cpu", [sample_row 1 None; sample_row 2 None])] /\
  (forall t', t' <> "cpu" -> lookup t' [("cpu", [mark_row "T9" (sample_row 1 None); sample_row 2 None])]
                             = lookup t' [("cpu", [sample_row 1 None; sample_row 2 None])]) /\
  (lookup "cpu" [("cpu", [sample_row 1 None; sample_row 2 None])] = None ->
   lookup "cpu" [("cpu", [mark_row "T9" (sample_row 1 None); sample_row 2 None])] = None) /\
  (forall rows, lookup "cpu" [("cpu", [sample_row 1 None; sample_row 2 None])] = Some rows ->
     exists rows', lookup "cpu" [("cpu", [mark_row "T9" (sample_row 1 None); sample_row 2 None])]
                   = Some rows' /\
     Forall2 (fun r r' => r' = r \/ r' = mark_row "T9" r) rows rows').
Proof.
  assert (H : mark_sent "cpu" [JInt 1] "T9" [("cpu", [sample_row 1 None; sample_row 2 None])]
    = Ok (PNone, [("cpu", [mark_row "T9" (sample_row 1 None); sample_row 2 None])]))
    by reflexivity.
  split; [exact H|]. exact (mark_sent_only_marks _ _ _ _ _ _ H).
Defined.



(** Whatever [Logger.upload_unsent_data] does, and however it ends, the
    database keeps the same tables, each table keeps its rows in order with
    their ids, tags, times and values, a row can only get [sent] set to a
    clock reading, and a table outside the requested ones is not touched
    (the names being plain, so that SQLite resolves each name to the table
    of that exact name). *)
Theorem upload_unsent_data_only_marks (e : env) (names : list string) (tables : tables_arg)
    (d : db) (Hplain : forallb sql_plain_name (normalize_tables names tables) = true)
    (Hnames : forallb sql_plain_name (map fst d) = true) :
  map fst (fst (upload_unsent_data e names tables d)) = map fst d /\
  forall t,
    ((lookup t d = None /\ lookup t (fst (upload_unsent_data e names tables d)) = None) \/
     exists rs rs', lookup t d = Some rs /\
                    lookup t (fst (upload_unsent_data e names tables d)) = Some rs' /\
       Forall2 (fun r r' => r' = r \/ exists now, r' = mark_row now r) rs rs') /\
    (~ In t (normalize_tables names tables) ->
     lookup t (fst (upload_unsent_data e names tables d)) = lookup t d).
Proof.
  assert (Hid : map fst (fst (d, @None exn)) = map fst d /\ forall t,
     ((lookup t d = None /\ lookup t (fst (d, @None exn)) = None) \/
      exists rs rs', lookup t d = Some rs /\ lookup t (fst (d, @None exn)) = Some rs' /\
       Forall2 (fun r r' => r' = r \/ exists now, r' = mark_row now r) rs rs') /\
     (~ In t (normalize_tables names tables) -> lookup t (fst (d, @None exn)) = lookup t d)).
  { cbn [fst]. split; [reflexivity|]. intros t. split; [|reflexivity].
    destruct (lookup t d) as [rs|]; [right; exists rs, rs; split; [reflexivity|]; split;
      [reflexivity | apply marked_refl] | left; split; reflexivity]. }
  unfold upload_unsent_data.
  destruct (fetch_unsent_data names tables d) as [[a|]|err] eqn:Ef; [| exact Hid | exact Hid].
  destruct (forward_all_frame e a d) as [Hk Hr]. split; [exact Hk|].
  intros t. destruct (Hr t) as [H1 H2]. split; [exact H1|].
  intros Hnin. apply H2. intros Hin. apply Hnin.
  unfold fetch_unsent_data in Ef.
  destruct (normalize_tables names tables) as [|t0 ts]; [discriminate|].
  destruct (fetch_tables (t0 :: ts) d []) as [a'|] eqn:Eft; cbn [bind] in Ef; [|discriminate].
  injection Ef as <-. destruct (fetch_tables_keys _ _ _ _ Eft t Hin) as [[] | H]; exact H.
Qed.

(** A cycle over [cpu] whose upload is echoed, with [luminosity] not
    requested. *)
Lemma upload_unsent_data_only_marks_witness :
  (forallb sql_plain_name (normalize_tables ["cpu"; "luminosity"] (TStr "cpu")) = true /\
   forallb sql_plain_name (map fst [("cpu", [sample_row 1 None]); ("luminosity", [sample_row 2 None])])
     = true) /\
  map fst (fst (upload_unsent_data (echo_env "T1") ["cpu"; "luminosity"] (TStr "cpu")
                  [("cpu", [sample_row 1 None]); ("luminosity", [sample_row 2 None])]))
    = ["cpu"; "luminosity"] /\
  lookup "luminosity" (fst (upload_unsent_data (echo_env "T1") ["cpu"; "luminosity"] (TStr "cpu")
                  [("cpu", [sample_row 1 None]); ("luminosity", [sample_row 2 None])]))
    = Some [sample_row 2 None].
Proof.
  assert (Hp : forallb sql_plain_name (normalize_tables ["cpu"; "luminosity"] (TStr "cpu")) = true)
    by reflexivity.
  assert (Hn : forallb sql_plain_name
                 (map fst [("cpu", [sample_row 1 None]); ("luminosity", [sample_row 2 None])]) = true)
    by reflexivity.
  split; [split; [exact Hp | exact Hn]|].
  destruct (upload_unsent_data_only_marks (echo_env "T1") ["cpu"; "luminosity"] (TStr "cpu")
              [("cpu", [sample_row 1 None]); ("luminosity", [sample_row 2 None])] Hp Hn)
    as [Hk Hr].
  split; [exact Hk|].
  destruct (Hr "luminosity") as [_ Hf]. rewrite Hf; [reflexivity|].
  intros [H | []]. discriminate H.
Defined.

End ForwarderExtras.

Module TagExtras.

Import Sensors SpecLux SensorProps.

Lemma has_char_cons (a b : ascii) (s : string) :
  PyStr.has_char a (String b s) = Ascii.eqb a b || PyStr.has_char a s.
Proof. reflexivity. Qed.

Lemma split_has_char (c a : ascii) (s p : string) :
  In p (PyStr.split c s) -> PyStr.has_char a s = false -> PyStr.has_char a p = false.
Proof.
  revert p. induction s as [|b s IH]; intros p.
  - intros [<- | []] _. reflexivity.
  - rewrite has_char_cons. intros Hin H. apply orb_false_iff in H as [Hab Hs].
    cbn [PyStr.split] in Hin. destruct (Ascii.eqb b c).
    + destruct Hin as [<- | Hin]; [reflexivity | apply IH; assumption].
    + destruct (PyStr.split c s) as [|x xs] eqn:E.
      * destruct Hin as [<- | []]. rewrite has_char_cons, Hab. reflexivity.
      * destruct Hin as [<- | Hin].
        -- rewrite has_char_cons, Hab. apply IH; [left; reflexivity | exact Hs].
        -- apply IH; [right; exact Hin | exact Hs].
Qed.

Lemma lstrip_has_char (a : ascii) (s : string) :
  PyStr.has_char a s = false -> PyStr.has_char a (PyStr.lstrip s) = false.
Proof.
  induction s as [|b s IH]; [reflexivity|]. cbn [PyStr.lstrip].
  intros H. destruct (PyStr.is_space b); [|exact H].
  rewrite has_char_cons in H. apply orb_false_iff in H as [_ H]. apply IH, H.
Qed.

Lemma rev_str_has_char (a : ascii) (s : string) :
  PyStr.has_char a (PyStr.rev_str s) = PyStr.has_char a s.
Proof.
  unfold PyStr.has_char, PyStr.rev_str. rewrite list_ascii_of_string_of_list_ascii.
  apply eq_true_iff_eq. rewrite !existsb_exists. split.
  - intros (x & Hx & E). exists x. split; [apply in_rev, Hx | exact E].
  - intros (x & Hx & E). exists x. split; [apply in_rev; rewrite rev_involutive; exact Hx | exact E].
Qed.

Lemma strip_has_char (a : ascii) (s : string) :
  PyStr.has_char a s = false -> PyStr.has_char a (PyStr.strip s) = false.
Proof.
  intros H. unfold PyStr.strip. rewrite rev_str_has_char.
  apply lstrip_has_char. rewrite rev_str_has_char. apply lstrip_has_char, H.
Qed.

Lemma split_once_absent (c : ascii) (s : string) :
  PyStr.has_char c s = false -> PyStr.split_once c s = None.
Proof.
  induction s as [|b s IH]; [reflexivity|]. rewrite has_char_cons.
  intros H. apply orb_false_iff in H as [Hcb Hs]. cbn [PyStr.split_once].
  rewrite Ascii.eqb_sym, Hcb, IH by exact Hs. reflexivity.
Qed.

Lemma parse_qsl_no_eq (qs : string) :
  PyStr.has_char "=" qs = false -> parse_qsl qs = [].
Proof.
  intros H. unfold parse_qsl. destruct (String.eqb qs ""); [reflexivity|].
  assert (Hp : forall nv, In nv (PyStr.split "&" qs) -> PyStr.has_char "=" nv = false)
    by (intros nv Hnv; eapply split_has_char; eassumption).
  induction (PyStr.split "&" qs) as [|nv l IH]; [reflexivity|]. cbn [flat_map].
  rewrite IH by (intros q Hq; apply Hp; right; exact Hq).
  destruct (String.eqb nv ""); [reflexivity|].
  rewrite split_once_absent by (apply Hp; left; reflexivity). reflexivity.
Qed.

Lemma replace_char_nonempty (a b : ascii) (s : string) :
  s <> "" -> PyStr.replace_char a b s <> "".
Proof. destruct s; [contradiction | discriminate]. Qed.

Lemma unquote_nonempty (s : string) : s <> "" -> PyStr.unquote s <> "".
Proof.
  destruct s as [|c t]; [contradiction|]. intros _. cbn [PyStr.unquote].
  destruct (Ascii.eqb c "%"); [|discriminate].
  destruct t as [|h1 [|h2 rest]]; try discriminate.
  destruct (PyStr.hex_val h1), (PyStr.hex_val h2); discriminate.
Qed.

Lemma parse_qsl_values (qs n v : string) : In (n, v) (parse_qsl qs) -> v <> "".
Proof.
  unfold parse_qsl. rewrite in_flat_map. intros (nv & _ & Hin).
  destruct (String.eqb nv ""); [destruct Hin|].
  destruct (PyStr.split_once "=" nv) as [[n0 v0]|]; [|destruct Hin].
  destruct (String.eqb v0 "") eqn:Ev; [destruct Hin|].
  destruct Hin as [Heq | []]. injection Heq as _ <-.
  apply unquote_nonempty, replace_char_nonempty. intros ->. discriminate.
Qed.

Lemma qs_first_in (key v : string) (l : list (string * string)) :
  qs_first key l = Some v -> exists n, In (n, v) l.
Proof.
  induction l as [|[n w] l IH]; [discriminate|]. cbn [qs_first].
  destruct (String.eqb n key).
  - intros H. injection H as ->. exists n. left. reflexivity.
  - intros H. destruct (IH H) as [n' Hn']. exists n'. right. exact Hn'.
Qed.

Lemma has_char_app (a : ascii) (s u : string) :
  PyStr.has_char a (s ++ u) = PyStr.has_char a s || PyStr.has_char a u.
Proof. unfold PyStr.has_char. rewrite list_ascii_of_string_app, existsb_app. reflexivity. Qed.

Lemma option_in_tag_result (t key : string) :
  exists r, option_in_tag (Some t) key = Ok r /\ (forall v, r = Some v -> v <> "") /\
            (PyStr.has_char "=" t = false -> r = None).
Proof.
  eexists. split; [reflexivity|]. split.
  - generalize (PyStr.split "," t) as parts. intros parts v.
    induction parts as [|p parts IH]; cbn [fold_right]; [discriminate|].
    destruct (qs_first key (parse_qsl (PyStr.strip p))) as [w|] eqn:E; [|exact IH].
    intros H. injection H as <-. destruct (qs_first_in _ _ _ E) as [n Hn].
    eapply parse_qsl_values; exact Hn.
  - intros H. assert (Hp : forall p, In p (PyStr.split "," t) -> PyStr.has_char "=" p = false)
      by (intros p Hp; eapply split_has_char; eassumption).
    induction (PyStr.split "," t) as [|p parts IH]; cbn [fold_right]; [reflexivity|].
    rewrite parse_qsl_no_eq by (apply strip_has_char, Hp; left; reflexivity).
    apply IH. intros q Hq. apply Hp. right. exact Hq.
Qed.

(** [option_in_tag] on a [str] tag never raises; a value it returns is
    never empty ([parse_qs] drops blank values); and a tag with no [=]
    holds no option at all. *)
Theorem option_in_tag_str (t key : string) :
  exists r, option_in_tag (Some t) key = Ok r /\ (forall v, r = Some v -> v <> "") /\
            (PyStr.has_char "=" t = false -> r = None).
Proof. exact (option_in_tag_result t key). Qed.

(** With a tag that contains no [=], no [nd] factor applies: the lux of a
    reading is the one the driver reported, or, when that read failed, the
    overflow formula on the reading's own channel counts. *)
Theorem tsl_plain_tag_unscaled (rd : tsl_reads) (t : string) (d : light_data)
    (H : tsl_sensor_data rd (Some t) = Ok (Some d)) (Ht : PyStr.has_char "=" t = false) :
  rd_lux rd = Some (ld_lux d)
  \/ (rd_lux rd = None /\ overflow_lux (ld_visible d) (ld_infrared d) = Ok (ld_lux d)).
Proof.
  revert H. unfold tsl_sensor_data.
  destruct (rd_visible rd) as [v|]; [|discriminate].
  destruct (rd_infrared rd) as [i|]; [|discriminate].
  destruct (truthy_int (Some v) && truthy_int (Some i)); [|discriminate].
  destruct (rd_lux rd) as [l|].
  - cbn [bind]. destruct (option_in_tag_result t "nd") as (r & Hr & _ & Hn).
    rewrite Hr, (Hn Ht). cbn [bind]. intros H. injection H as <-. left. reflexivity.
  - destruct (overflow_lux v i) as [x|err] eqn:Eo; cbn [bind]; [|discriminate].
    unfold overflow_tag. destruct (truthy_str (Some t)).
    + destruct (option_in_tag_result (t ++ ",overflow") "nd") as (r & Hr & _ & Hn).
      rewrite Hr, Hn by (rewrite has_char_app, Ht; reflexivity). cbn [bind].
      intros H. injection H as <-. right. split; [reflexivity | exact Eo].
    + destruct (option_in_tag_result "overflow" "nd") as (r & Hr & _ & Hn).
      rewrite Hr, Hn by reflexivity. cbn [bind].
      intros H. injection H as <-. right. split; [reflexivity | exact Eo].
Qed.

Lemma tsl_plain_tag_unscaled_witness :
  tsl_sensor_data mock_reads (Some "field")
    = Ok (Some {| ld_tag := Some "field,overflow"; ld_visible := 554840886; ld_infrared := 8478;
                  ld_lux := match overflow_lux 554840886 8478 with Ok l => l | Exc _ => 0%float end |})
  /\ PyStr.has_char "=" "field" = false /\
  (rd_lux mock_reads = Some (match overflow_lux 554840886 8478 with Ok l => l | Exc _ => 0%float end)
   \/ (rd_lux mock_reads = None /\
       overflow_lux 554840886 8478 = Ok (match overflow_lux 554840886 8478 with Ok l => l | Exc _ => 0%float end))).
Proof.
  assert (H : tsl_sensor_data mock_reads (Some "field")
    = Ok (Some {| ld_tag := Some "field,overflow"; ld_visible := 554840886; ld_infrared := 8478;
                  ld_lux := match overflow_lux 554840886 8478 with Ok l => l | Exc _ => 0%float end |}))
    by reflexivity.
  assert (Ht : PyStr.has_char "=" "field" = false) by reflexivity.
  split; [exact H|]. split; [exact Ht|].
  exact (tsl_plain_tag_unscaled _ _ _ H Ht).
Defined.

End TagExtras.
